(** * GainChef: the session orchestration engine, embedded and verified

    A shallow embedding of the agent of [src/server.ts] (class
    [GainChefAgent] and the worker's [fetch] handler) and of the five
    tools of [src/tools.ts], together with the properties that the
    specification states about them.

    Conventions of the embedding.
    - A JavaScript [number] is a [Z]: every number the agent stores is a
      gram or calorie count or a millisecond timestamp.
    - Durable Object storage is a finite map from string keys to values;
      [storage.get] hands out a structured clone, so a value read from the
      store is never aliased with the stored one.
    - [Date.now()] and [crypto.randomUUID()] are inputs of the functions
      that call them.
    - An [async] method is a function in the monad [Agent]: it takes the
      store, returns the store it leaves behind, and either a value or the
      exception it threw. *)

From Stdlib Require Import ZArith Lia Ascii DecimalString.
From stdpp Require Import gmap strings list sorting.

Set Warnings "-register-all,-clear-no-such-hyp".

Local Open Scope string_scope.
Local Open Scope list_scope.
Local Open Scope stdpp_scope.
Local Open Scope Z_scope.

(** ** The host library: strings and arrays *)

Module JS.

(** Template-literal rendering of an integral number. *)
Definition show (z : Z) : string := NilZero.string_of_int (Z.to_int z).

(** [pre] is a prefix of [s]. *)
Fixpoint startsWith (pre s : string) : bool :=
  match pre, s with
  | EmptyString, _ => true
  | String a pre', String b s' =>
      if Ascii.eqb a b then startsWith pre' s' else false
  | String _ _, EmptyString => false
  end.

(** [String.prototype.includes]: [sub] occurs somewhere in [s]. *)
Fixpoint includes (s sub : string) : bool :=
  startsWith sub s ||
  match s with
  | EmptyString => false
  | String _ s' => includes s' sub
  end.

(** [Array.prototype.slice(0, n)]: a negative [n] counts from the end. *)
Definition slice0 {A} (n : Z) (l : list A) : list A :=
  if 0 <=? n then take (Z.to_nat n) l
  else take (length l - Z.to_nat (- n))%nat l.

(** [Array.prototype.sort(cmp)] is stable; for a consistent comparator
    its result is the stable insertion sort of the array. *)
Fixpoint insert {A} (cmp : A → A → Z) (x : A) (l : list A) : list A :=
  match l with
  | [] => [x]
  | y :: l' => if 0 <? cmp x y then y :: insert cmp x l' else x :: l
  end.

Fixpoint sort {A} (cmp : A → A → Z) (l : list A) : list A :=
  match l with
  | [] => []
  | x :: l' => insert cmp x (sort cmp l')
  end.

(** [a ?? b] *)
Definition nullish {A} (a : option A) (b : A) : A :=
  match a with Some v => v | None => b end.

End JS.

Notation "a ?? b" := (JS.nullish a b) (at level 45, right associativity).

(** ** [Date.prototype.toISOString] *)

Module ISODate.

Definition msPerDay : Z := 86400000.
Definition maxTime : Z := 8640000000000000.

(** Civil date of a day number (days since 1970-01-01), proleptic
    Gregorian calendar. *)
Definition civil (day : Z) : Z * Z * Z :=
  let z := day + 719468 in
  let era := z / 146097 in
  let doe := z - era * 146097 in
  let yoe := (doe - doe / 1460 + doe / 36524 - doe / 146096) / 365 in
  let doy := doe - (365 * yoe + yoe / 4 - yoe / 100) in
  let mp := (5 * doy + 2) / 153 in
  let d := doy - (153 * mp + 2) / 5 + 1 in
  let m := if mp <? 10 then mp + 3 else mp - 9 in
  let y := yoe + era * 400 + (if m <=? 2 then 1 else 0) in
  (y, m, d).

Definition digit (n : Z) : Ascii.ascii :=
  Ascii.ascii_of_nat (48 + Z.to_nat (n mod 10)).

Definition digits2 (n : Z) (k : string) : string :=
  String (digit (n / 10)) (String (digit n) k).

Definition digits4 (n : Z) (k : string) : string :=
  digits2 (n / 100) (digits2 n k).

Definition digits6 (n : Z) (k : string) : string :=
  digits2 (n / 10000) (digits4 n k).

(** The year of an ISO string: four digits for the years 0 to 9999, a
    sign and six digits otherwise. *)
Definition year (y : Z) (k : string) : string :=
  if (0 <=? y) && (y <=? 9999) then digits4 y k
  else if y <? 0 then String "-"%char (digits6 (- y) k)
  else String "+"%char (digits6 y k).

(** The date part of [new Date(t).toISOString()]; [None] is the
    [RangeError] of an invalid date. *)
Definition datePart (t : Z) : option string :=
  if (- maxTime <=? t) && (t <=? maxTime) then
    let '(y, m, d) := civil (t / msPerDay) in
    Some (year y (String "-"%char (digits2 m (String "-"%char (digits2 d EmptyString)))))
  else None.

End ISODate.

(** ** The data model ([src/types.ts]) *)

Record MacroTargets := {
  protein : Z;
  carbs : Z;
  fat : Z;
  calories : Z
}.

Inductive GoalType := bulking | cutting | recomposition | maintaining.
Inductive Sex := male | female | non_binary.
Inductive ActivityLevel := sedentary | light | moderate | intense.
Inductive MealType := breakfast | lunch | dinner | snack | post_workout.
Inductive Timeframe := daily | weekly.

(** An optional property of an object: the key is not an own property, or
    it is one and holds [undefined], or it holds a value. Reading the
    property cannot tell the first two apart; object spread can. *)
Inductive prop (A : Type) :=
  | Absent
  | Undefined
  | Defined (a : A).
Arguments Absent {A}.
Arguments Undefined {A}.
Arguments Defined {A} a.

(** [obj.key] *)
Definition read {A} (p : prop A) : option A :=
  match p with Defined a => Some a | _ => None end.

(** The property [key] of [{...base, ...over}]. *)
Definition spread {A} (base over : prop A) : prop A :=
  match over with Absent => base | _ => over end.

Record UserProfile := {
  up_id : prop string;
  up_name : prop string;
  up_goalType : prop GoalType;
  up_weight : prop Z;
  up_targetWeight : prop Z;
  up_heightInches : prop Z;
  up_age : prop Z;
  up_sex : prop Sex;
  up_activityLevel : prop ActivityLevel;
  up_macroTargets : prop MacroTargets;
  up_restrictions : prop (list string);
  up_preferences : prop (list string);
  up_timezone : prop string;
  up_updatedAt : prop Z
}.

(** [{}] *)
Definition emptyProfile : UserProfile :=
  {| up_id := Absent; up_name := Absent; up_goalType := Absent;
     up_weight := Absent; up_targetWeight := Absent;
     up_heightInches := Absent; up_age := Absent; up_sex := Absent;
     up_activityLevel := Absent; up_macroTargets := Absent;
     up_restrictions := Absent; up_preferences := Absent;
     up_timezone := Absent; up_updatedAt := Absent |}.

Record MealLog := {
  ml_id : string;
  ml_timestamp : Z;
  ml_food : string;
  ml_mealType : option MealType;
  ml_protein : Z;
  ml_carbs : Z;
  ml_fat : Z;
  ml_calories : Z;
  ml_notes : option string
}.

(** The argument of [logMeal]: a [MealLog] whose [id] and [timestamp] may
    still be nullish. *)
Record MealLogArg := {
  arg_id : option string;
  arg_timestamp : option Z;
  arg_food : string;
  arg_mealType : option MealType;
  arg_protein : Z;
  arg_carbs : Z;
  arg_fat : Z;
  arg_calories : Z;
  arg_notes : option string
}.

Record DailyMacros := {
  dm_date : string;
  dm_totals : MacroTargets;
  dm_meals : list MealLog
}.

Record MealPlanEntry := {
  mpe_mealType : MealType;
  mpe_name : string;
  mpe_description : string;
  mpe_macros : MacroTargets;
  mpe_ingredients : list string;
  mpe_preparationSteps : list string
}.

Record MealPlanDay := {
  mpd_date : string;
  mpd_goalSummary : string;
  mpd_meals : list MealPlanEntry
}.

Record MealPlan := {
  mp_id : string;
  mp_createdAt : Z;
  mp_timeframe : Timeframe;
  mp_days : list MealPlanDay;
  mp_shoppingListId : option string
}.

Record ShoppingListItem := {
  sli_name : string;
  sli_quantity : string;
  sli_mealReferences : list string
}.

Record ShoppingList := {
  sl_id : string;
  sl_createdAt : Z;
  sl_timeframe : Timeframe;
  sl_items : list ShoppingListItem
}.

Record RateLimitRecord := {
  rl_count : Z;
  rl_reset : Z
}.

(** A [Record<string, V>] with its keys in insertion order. (Keys that
    are canonical array indices, which JavaScript enumerates first, do not
    occur: list identifiers are UUIDs or [shopping_<ms>].) *)
Module Obj.

Fixpoint get {V} (k : string) (o : list (string * V)) : option V :=
  match o with
  | [] => None
  | (k', v) :: o' => if String.eqb k' k then Some v else get k o'
  end.

(** [{...o, [k]: v}] *)
Fixpoint assign {V} (k : string) (v : V) (o : list (string * V))
  : list (string * V) :=
  match o with
  | [] => [(k, v)]
  | (k', v') :: o' =>
      if String.eqb k' k then (k', v) :: o' else (k', v') :: assign k v o'
  end.

(** [Object.values(o)] *)
Definition values {V} (o : list (string * V)) : list V := o.*2.

End Obj.

(** ** The State Store *)

Inductive Value :=
  | VProfile (p : UserProfile)
  | VDaily (d : DailyMacros)
  | VDates (l : list string)
  | VPlan (p : MealPlan)
  | VPlans (l : list MealPlan)
  | VLists (o : list (string * ShoppingList))
  | VRate (r : RateLimitRecord).

Abbreviation Store := (gmap string Value).

(** [storageGet<T>]: the stored value seen at type [T]. The store is well
    typed: a key is only ever written at one type. *)
Definition asProfile (v : option Value) : option UserProfile :=
  match v with Some (VProfile p) => Some p | _ => None end.
Definition asDaily (v : option Value) : option DailyMacros :=
  match v with Some (VDaily d) => Some d | _ => None end.
Definition asDates (v : option Value) : option (list string) :=
  match v with Some (VDates l) => Some l | _ => None end.
Definition asPlan (v : option Value) : option MealPlan :=
  match v with Some (VPlan p) => Some p | _ => None end.
Definition asPlans (v : option Value) : option (list MealPlan) :=
  match v with Some (VPlans l) => Some l | _ => None end.
Definition asLists (v : option Value) : option (list (string * ShoppingList)) :=
  match v with Some (VLists o) => Some o | _ => None end.
Definition asRate (v : option Value) : option RateLimitRecord :=
  match v with Some (VRate r) => Some r | _ => None end.

(** A thrown value: an [Error] with its [name] and [message], or anything
    else. *)
Inductive Exn :=
  | Err (name message : string)
  | NonError.

Inductive Outcome (A : Type) :=
  | Returned (a : A)
  | Thrown (e : Exn).
Arguments Returned {A} a.
Arguments Thrown {A} e.

(** An asynchronous method of the agent. A write that completed before an
    exception was thrown stands. *)
Definition Agent (A : Type) : Type := Store → Outcome A * Store.

#[global] Instance Agent_ret : MRet Agent := λ A a s, (Returned a, s).

#[global] Instance Agent_bind : MBind Agent := λ A B f m s,
  match m s with
  | (Returned a, s') => f a s'
  | (Thrown e, s') => (Thrown e, s')
  end.

#[global] Instance Agent_fmap : FMap Agent := λ A B f m s,
  match m s with
  | (Returned a, s') => (Returned (f a), s')
  | (Thrown e, s') => (Thrown e, s')
  end.

Definition throw {A} (e : Exn) : Agent A := λ s, (Thrown e, s).

Definition storageGet (key : string) : Agent (option Value) :=
  λ s, (Returned (s !! key), s).

Definition storagePut (key : string) (v : Value) : Agent unit :=
  λ s, (Returned tt, <[key := v]> s).

(** [f] on each element of an array in turn: a sequence of awaited calls,
    or [Promise.all] over reads. *)
Fixpoint mapAll {A B} (f : A → Agent B) (l : list A) : Agent (list B) :=
  match l with
  | [] => mret []
  | x :: l' => y ← f x; ys ← mapAll f l'; mret (y :: ys)
  end.

Module STORAGE_KEYS.
Definition PROFILE := "profile".
Definition MEAL_DAILY_PREFIX := "daily-macros:".
Definition MEAL_DATES := "daily-macros:dates".
Definition MEAL_PLAN_ACTIVE := "meal-plan:active".
Definition MEAL_PLAN_HISTORY := "meal-plan:history".
Definition SHOPPING_LISTS := "shopping-lists".
Definition RATE_LIMIT := "rate-limit".
End STORAGE_KEYS.
Import STORAGE_KEYS.

Definition EMPTY_TOTALS : MacroTargets :=
  {| protein := 0; carbs := 0; fat := 0; calories := 0 |}.

Definition MAX_STORED_MEAL_HISTORY : Z := 30.
Definition MAX_MEAL_PLAN_HISTORY : Z := 5.
Definition RATE_LIMIT_WINDOW_MS : Z := 10 * 60 * 1000.
Definition RATE_LIMIT_MAX_REQUESTS : Z := 20.

(** ** The agent ([src/server.ts]) *)

Definition addMeal (totals : MacroTargets) (meal : MealLog) : MacroTargets :=
  {| protein := protein totals + ml_protein meal;
     carbs := carbs totals + ml_carbs meal;
     fat := fat totals + ml_fat meal;
     calories := calories totals + ml_calories meal |}.

Definition computeTotals (meals : list MealLog) : MacroTargets :=
  foldl addMeal EMPTY_TOTALS meals.

(** [date.toISOString().slice(0, 10)] *)
Definition toDateString (date : Z) : Agent string :=
  match ISODate.datePart date with
  | Some iso => mret (String.substring 0 10 iso)
  | None => throw (Err "RangeError" "Invalid time value")
  end.

Definition getDailyKey (date : string) : string :=
  MEAL_DAILY_PREFIX +:+ date.

Definition readDaily (date : string) : Agent (option DailyMacros) :=
  asDaily <$> storageGet (getDailyKey date).

Definition writeDaily (day : DailyMacros) : Agent unit :=
  storagePut (getDailyKey (dm_date day)) (VDaily day).

Definition getProfile : Agent (option UserProfile) :=
  asProfile <$> storageGet PROFILE.

Definition setProfile (now : Z) (profile : UserProfile) : Agent UserProfile :=
  stored ← getProfile;
  let existing := stored ?? emptyProfile in
  let merged :=
    {| up_id := spread (up_id existing) (up_id profile);
       up_name := spread (up_name existing) (up_name profile);
       up_goalType := spread (up_goalType existing) (up_goalType profile);
       up_weight := spread (up_weight existing) (up_weight profile);
       up_targetWeight :=
         spread (up_targetWeight existing) (up_targetWeight profile);
       up_heightInches :=
         spread (up_heightInches existing) (up_heightInches profile);
       up_age := spread (up_age existing) (up_age profile);
       up_sex := spread (up_sex existing) (up_sex profile);
       up_activityLevel :=
         spread (up_activityLevel existing) (up_activityLevel profile);
       up_macroTargets :=
         spread (up_macroTargets existing) (up_macroTargets profile);
       up_restrictions :=
         spread (up_restrictions existing) (up_restrictions profile);
       up_preferences :=
         spread (up_preferences existing) (up_preferences profile);
       up_timezone := spread (up_timezone existing) (up_timezone profile);
       up_updatedAt := Defined now |} in
  storagePut PROFILE (VProfile merged);;
  mret merged.

Definition getLatestMealPlan : Agent (option MealPlan) :=
  asPlan <$> storageGet MEAL_PLAN_ACTIVE.

Definition saveMealPlan (plan : MealPlan) : Agent unit :=
  storagePut MEAL_PLAN_ACTIVE (VPlan plan);;
  stored ← storageGet MEAL_PLAN_HISTORY;
  let history := asPlans stored ?? [] in
  let deduped :=
    JS.slice0 MAX_MEAL_PLAN_HISTORY
      (plan :: filter (λ item, mp_id item ≠ mp_id plan) history) in
  storagePut MEAL_PLAN_HISTORY (VPlans deduped).

Definition getMealPlanHistory (limit : option Z) : Agent (list MealPlan) :=
  stored ← storageGet MEAL_PLAN_HISTORY;
  let history := asPlans stored ?? [] in
  mret (JS.slice0 (limit ?? MAX_MEAL_PLAN_HISTORY) history).

Definition saveShoppingList (list : ShoppingList) : Agent unit :=
  stored ← storageGet SHOPPING_LISTS;
  let existing := asLists stored ?? [] in
  let updated := Obj.assign (sl_id list) list existing in
  storagePut SHOPPING_LISTS (VLists updated).

Definition getShoppingList (id : option string) : Agent (option ShoppingList) :=
  stored ← storageGet SHOPPING_LISTS;
  let existing := asLists stored ?? [] in
  match id with
  | Some i =>
      if bool_decide (i = EmptyString) then
        mret (head (JS.sort (λ a b, sl_createdAt b - sl_createdAt a)
                      (Obj.values existing)))
      else mret (Obj.get i existing)
  | None =>
      mret (head (JS.sort (λ a b, sl_createdAt b - sl_createdAt a)
                    (Obj.values existing)))
  end.

Definition bumpRateLimit (now : Z) : Agent bool :=
  let key := RATE_LIMIT in
  stored ← storageGet key;
  let record :=
    asRate stored ??
      {| rl_count := 0; rl_reset := now + RATE_LIMIT_WINDOW_MS |} in
  let record :=
    if now >? rl_reset record
    then {| rl_count := 0; rl_reset := now + RATE_LIMIT_WINDOW_MS |}
    else record in
  if rl_count record >=? RATE_LIMIT_MAX_REQUESTS then
    storagePut key (VRate record);;
    mret false
  else
    let record :=
      {| rl_count := rl_count record + 1; rl_reset := rl_reset record |} in
    storagePut key (VRate record);;
    mret true.

Section Collation.

(** [a.localeCompare(b)]: negative, zero or positive. *)
Variable localeCompare : string → string → Z.

Definition updateMealDates (date : string) : Agent unit :=
  stored ← storageGet MEAL_DATES;
  let dates := asDates stored ?? [] in
  let dates := if bool_decide (date ∈ dates) then dates else dates ++ [date] in
  let ordered :=
    JS.slice0 MAX_STORED_MEAL_HISTORY
      (JS.sort (λ a b, localeCompare b a) dates) in
  storagePut MEAL_DATES (VDates ordered).

(** [now] is [Date.now()]; [uuid] is what [crypto.randomUUID()] returns
    where [crypto] has it. *)
Definition logMeal (now : Z) (uuid : option string) (meal : MealLogArg)
  : Agent DailyMacros :=
  let timestamp := arg_timestamp meal ?? now in
  date ← toDateString timestamp;
  let normalizedMeal :=
    {| ml_id :=
         arg_id meal ??
           match uuid with
           | Some u => u
           | None => "meal_" +:+ JS.show timestamp
           end;
       ml_timestamp := timestamp;
       ml_food := arg_food meal;
       ml_mealType := arg_mealType meal;
       ml_protein := arg_protein meal;
       ml_carbs := arg_carbs meal;
       ml_fat := arg_fat meal;
       ml_calories := arg_calories meal;
       ml_notes := arg_notes meal |} in
  existing ← readDaily date;
  let meals := match existing with Some e => dm_meals e | None => [] end in
  let meals := meals ++ [normalizedMeal] in
  let meals := JS.sort (λ a b, ml_timestamp a - ml_timestamp b) meals in
  let totals := computeTotals meals in
  let updated := {| dm_date := date; dm_meals := meals; dm_totals := totals |} in
  writeDaily updated;;
  updateMealDates date;;
  mret updated.

Definition getDailyMacros (now : Z) (date : option string)
  : Agent DailyMacros :=
  date ← match date with Some d => mret d | None => toDateString now end;
  existing ← readDaily date;
  match existing with
  | Some e => mret e
  | None =>
      mret {| dm_date := date; dm_meals := []; dm_totals := EMPTY_TOTALS |}
  end.

Definition getMealHistory (limit : option Z) : Agent (list DailyMacros) :=
  let limit := limit ?? 7 in
  stored ← storageGet MEAL_DATES;
  let storedDates := asDates stored ?? [] in
  match storedDates with
  | [] => mret []
  | _ =>
      let ordered :=
        JS.slice0 limit (JS.sort (λ a b, localeCompare b a) storedDates) in
      results ← mapAll readDaily ordered;
      mret (omap (λ day, day) results)
  end.

End Collation.

(** ** The tools ([src/tools.ts])

    A tool's [execute] receives the input its schema has parsed: a key
    the caller left out is [None], and no key holds [undefined]. [agent]
    tells whether [getCurrentAgent()] found the agent. *)

Record MealLogInput := {
  in_food : string;
  in_mealType : option MealType;
  in_protein : Z;
  in_carbs : Z;
  in_fat : Z;
  in_calories : Z;
  in_notes : option string
}.

(** [macroTargetSchema.partial()] *)
Record MacroTargetsInput := {
  in_targetProtein : option Z;
  in_targetCarbs : option Z;
  in_targetFat : option Z;
  in_targetCalories : option Z
}.

Record ProfileUpdateInput := {
  in_name : option string;
  in_goalType : option GoalType;
  in_weight : option Z;
  in_targetWeight : option Z;
  in_heightInches : option Z;
  in_age : option Z;
  in_sex : option Sex;
  in_activityLevel : option ActivityLevel;
  in_macroTargets : option MacroTargetsInput;
  in_restrictions : option (list string);
  in_preferences : option (list string);
  in_timezone : option string
}.

Record MealPlanInput := {
  in_planId : option string;
  in_planTimeframe : Timeframe;
  in_days : list MealPlanDay;
  in_shoppingListId : option string
}.

Record ShoppingListInput := {
  in_listId : option string;
  in_listPlanId : option string;
  in_listTimeframe : Timeframe;
  in_items : list ShoppingListItem
}.

Definition contextUnavailable : Exn :=
  Err "Error" "GainChef agent context unavailable".

(** The property a parsed input contributes to [{...input}]. *)
Definition own {A} (o : option A) : prop A :=
  match o with Some a => Defined a | None => Absent end.

(** Truthiness of a string and of a number. *)
Definition truthyString (o : option string) : bool :=
  match o with Some s => negb (String.eqb s EmptyString) | None => false end.
Definition truthyNumber (o : option Z) : bool :=
  match o with Some z => negb (z =? 0) | None => false end.

Definition showGoal (g : GoalType) : string :=
  match g with
  | bulking => "bulking"
  | cutting => "cutting"
  | recomposition => "recomposition"
  | maintaining => "maintaining"
  end.

(** [s] between double quotes. *)
Definition quoted (s : string) : string :=
  String (ascii_of_nat 34) (s +:+ String (ascii_of_nat 34) EmptyString).

(** [parts.join(sep)] *)
Fixpoint join (sep : string) (parts : list string) : string :=
  match parts with
  | [] => EmptyString
  | [p] => p
  | p :: rest => p +:+ sep +:+ join sep rest
  end.

Definition formatProgress (profile : option UserProfile) (today : DailyMacros)
    (history : list DailyMacros) : string :=
  let todayTotals := dm_totals today in
  let profileTarget := profile ≫= (λ p, read (up_macroTargets p)) in
  let baseLines :=
    [ "Today (" +:+ dm_date today +:+ "): "
        +:+ JS.show (protein todayTotals) +:+ "p / "
        +:+ JS.show (carbs todayTotals) +:+ "c / "
        +:+ JS.show (fat todayTotals) +:+ "f ("
        +:+ JS.show (calories todayTotals) +:+ " cal)";
      match dm_meals today with
      | [] => "No meals logged yet today."
      | meals => "Meals logged: " +:+ join ", " (JS.slice0 5 (ml_food <$> meals))
      end ] in
  let baseLines :=
    match profileTarget with
    | Some t =>
        baseLines ++
        [ "Targets: " +:+ JS.show (protein t) +:+ "p / "
            +:+ JS.show (carbs t) +:+ "c / "
            +:+ JS.show (fat t) +:+ "f ("
            +:+ JS.show (calories t) +:+ " cal)" ]
    | None => baseLines
    end in
  let baseLines :=
    if (1 <? length history)%nat then
      let otherDays :=
        JS.slice0 3
          (filter (λ day, dm_date day ≠ dm_date today) history) in
      match otherDays with
      | [] => baseLines
      | _ =>
          baseLines ++ "Recent days:" ::
          ((λ day,
              let totals := dm_totals day in
              "- " +:+ dm_date day +:+ ": "
                +:+ JS.show (protein totals) +:+ "p / "
                +:+ JS.show (carbs totals) +:+ "c / "
                +:+ JS.show (fat totals) +:+ "f ("
                +:+ JS.show (calories totals) +:+ " cal), "
                +:+ JS.show (Z.of_nat (length (dm_meals day))) +:+ " meals")
             <$> otherDays)
      end
    else baseLines in
  join (String (ascii_of_nat 10) EmptyString) baseLines.

(** The schema of [getProgress]: an integer from 1 to 30, 3 when left
    out. [None] is the validation failure. *)
Definition parseDays (raw : option Z) : option Z :=
  match raw with
  | None => Some 3
  | Some d => if (1 <=? d) && (d <=? 30) then Some d else None
  end.

Section Tools.

Variable localeCompare : string → string → Z.

Definition tool_logMeal (agent : bool) (now : Z) (uuid : option string)
    (input : MealLogInput) : Agent string :=
  if negb agent then throw contextUnavailable else
  result ← logMeal localeCompare now uuid
    {| arg_food := in_food input;
       arg_mealType := in_mealType input;
       arg_protein := in_protein input;
       arg_carbs := in_carbs input;
       arg_fat := in_fat input;
       arg_calories := in_calories input;
       arg_notes := in_notes input;
       arg_id := Some EmptyString;
       arg_timestamp := Some now |};
  let totals := dm_totals result in
  mret ("Meal logged. Today's totals: "
          +:+ JS.show (protein totals) +:+ "g protein / "
          +:+ JS.show (carbs totals) +:+ "g carbs / "
          +:+ JS.show (fat totals) +:+ "g fat ("
          +:+ JS.show (calories totals) +:+ " cal).").

Definition tool_updateProfile (agent : bool) (now : Z)
    (input : ProfileUpdateInput) : Agent string :=
  if negb agent then throw contextUnavailable else
  updated ← setProfile now
    {| up_id := Absent;
       up_name := own (in_name input);
       up_goalType := own (in_goalType input);
       up_weight := own (in_weight input);
       up_targetWeight := own (in_targetWeight input);
       up_heightInches := own (in_heightInches input);
       up_age := own (in_age input);
       up_sex := own (in_sex input);
       up_activityLevel := own (in_activityLevel input);
       up_macroTargets :=
         match in_macroTargets input with
         | Some m =>
             Defined {| protein := in_targetProtein m ?? 0;
                        carbs := in_targetCarbs m ?? 0;
                        fat := in_targetFat m ?? 0;
                        calories := in_targetCalories m ?? 0 |}
         | None => Undefined
         end;
       up_restrictions := own (in_restrictions input);
       up_preferences := own (in_preferences input);
       up_timezone := own (in_timezone input);
       up_updatedAt := Absent |};
  let summaryParts : list string :=
    (if truthyString (in_name input)
     then ["Name set to " +:+ (in_name input ?? EmptyString)] else [])
    ++ match in_goalType input with
       | Some g => ["Goal updated to " +:+ showGoal g]
       | None => []
       end
    ++ (if truthyNumber (in_weight input) && truthyNumber (in_targetWeight input)
        then ["Tracking progress " +:+ JS.show (in_weight input ?? 0)
                +:+ " lbs â†’ " +:+ JS.show (in_targetWeight input ?? 0)
                +:+ " lbs"]
        else [])
    ++ match in_macroTargets input with
       | Some _ =>
           let t := read (up_macroTargets updated) in
           ["Targets: " +:+ JS.show ((protein <$> t) ?? 0) +:+ "p / "
              +:+ JS.show ((carbs <$> t) ?? 0) +:+ "c / "
              +:+ JS.show ((fat <$> t) ?? 0) +:+ "f ("
              +:+ JS.show ((calories <$> t) ?? 0) +:+ " cal)"]
       | None => []
       end in
  mret match summaryParts with
       | [] => "Profile updated with the provided details."
       | _ => "Profile updated. " +:+ join " | " summaryParts
       end.

Definition tool_getProgress (agent : bool) (now : Z) (raw : option Z)
  : Agent string :=
  match parseDays raw with
  | None => throw (Err "ZodError" "Invalid input")
  | Some days =>
      if negb agent then throw contextUnavailable else
      profile ← getProfile;
      today ← getDailyMacros now None;
      history ← getMealHistory localeCompare (Some days);
      mret (formatProgress profile today history)
  end.

(** [uuid]/[None] as for [logMeal]: without [crypto.randomUUID] the
    identifier is built from [Date.now()]. *)
Definition tool_saveMealPlan (agent : bool) (now : Z) (uuid : option string)
    (input : MealPlanInput) : Agent string :=
  if negb agent then throw contextUnavailable else
  let planId :=
    in_planId input ??
      match uuid with Some u => u | None => "plan_" +:+ JS.show now end in
  let plan :=
    {| mp_id := planId;
       mp_createdAt := now;
       mp_timeframe := in_planTimeframe input;
       mp_days := in_days input;
       mp_shoppingListId := in_shoppingListId input |} in
  saveMealPlan plan;;
  mret ("Meal plan " +:+ quoted planId +:+ " saved with "
          +:+ JS.show (Z.of_nat (length (mp_days plan))) +:+ " day(s).").

End Tools.

Definition tool_saveShoppingList (agent : bool) (now : Z) (uuid : option string)
    (input : ShoppingListInput) : Agent string :=
  if negb agent then throw contextUnavailable else
  let listId :=
    in_listId input ??
      match uuid with Some u => u | None => "shopping_" +:+ JS.show now end in
  let list :=
    {| sl_id := listId;
       sl_createdAt := now;
       sl_timeframe := in_listTimeframe input;
       sl_items := in_items input |} in
  saveShoppingList list;;
  (if truthyString (in_listPlanId input) then
     latestPlan ← getLatestMealPlan;
     match latestPlan with
     | Some latest =>
         if bool_decide (Some (mp_id latest) = in_listPlanId input) then
           saveMealPlan
             {| mp_id := mp_id latest;
                mp_createdAt := mp_createdAt latest;
                mp_timeframe := mp_timeframe latest;
                mp_days := mp_days latest;
                mp_shoppingListId := Some listId |}
         else mret tt
     | None => mret tt
     end
   else mret tt);;
  mret ("Shopping list " +:+ quoted listId +:+ " stored with "
          +:+ JS.show (Z.of_nat (length (sl_items list))) +:+ " item(s).").

(** ** Generation: [onChatMessage] *)

Inductive ResolvedModel := mkModel {
  rm_provider : string;
  rm_supportsTools : bool;
  rm_fallback : option ResolvedModel
}.

Record SystemPromptContext := {
  ctx_profile : option UserProfile;
  ctx_today : DailyMacros;
  ctx_history : list DailyMacros;
  ctx_activePlan : option MealPlan;
  ctx_shoppingList : option ShoppingList
}.

(** What the stream writer receives: the three chunks of a plain text,
    or the merged stream of a generation. *)
Inductive Chunk :=
  | TextStart
  | TextDelta (delta : string)
  | TextEnd
  | Merged (provider : string) (system : string) (tools : bool).

(** One run of [execute]: the chunks written, the backends [streamText]
    was called on (in order), and the exception that escaped, if any. *)
Record Run := {
  written : list Chunk;
  attempts : list ResolvedModel;
  escaped : option Exn
}.

Definition streamPlainText (writer : list Chunk) (text : string) : list Chunk :=
  writer ++ [TextStart; TextDelta text; TextEnd].

Definition resolveModel (openaiKey : option string) : option ResolvedModel :=
  if truthyString openaiKey then
    Some {| rm_provider := "openai:gpt-4o-mini";
            rm_supportsTools := true;
            rm_fallback := None |}
  else None.

Definition isRecoverableModelError (error : Exn) : bool :=
  let message := match error with Err _ m => m | NonError => EmptyString end in
  let name := match error with Err n _ => n | NonError => EmptyString end in
  JS.includes message "No such model"
  || JS.includes message "5007"
  || String.eqb name "InferenceUpstreamError".

Definition rateLimitedMessage : string :=
  "i need a breather—too many requests right now. try again in a few minutes.".
Definition noModelMessage : string :=
  "i can't reach an ai model right now. make sure an openai key is configured.".
Definition generationFailedMessage : string :=
  "I hit a snag generating that answer. Please try again in a moment.".
Definition manualLoggingNote : string :=
  "Note: I'm operating without automated logging right now, so I'll give you recommendations directly—log meals or update your profile manually.".

Section Generation.

Variable localeCompare : string → string → Z.

(** The rendering of the context as a system prompt. *)
Variable buildSystemPrompt : SystemPromptContext → string.

(** The backend: [streamText] on a model and a system prompt returns a
    stream ([None]) or throws. *)
Variable streamText : ResolvedModel → string → option Exn.

Definition newline2 : string :=
  String (ascii_of_nat 10) (String (ascii_of_nat 10) EmptyString).

(** [runModel(info)]: the writer after the call, or what it threw. *)
Definition runModel (systemPrompt : string) (info : ResolvedModel)
    (writer : list Chunk) : list Chunk + Exn :=
  let prompt :=
    if rm_supportsTools info then systemPrompt
    else systemPrompt +:+ newline2 +:+ manualLoggingNote in
  match streamText info prompt with
  | Some error => inr error
  | None =>
      inl (writer ++ [Merged (rm_provider info) prompt (rm_supportsTools info)])
  end.

(** The [try]/[catch] around [runModel(modelInfo)]. *)
Definition generate (systemPrompt : string) (modelInfo : ResolvedModel)
    (writer : list Chunk) : Run :=
  match runModel systemPrompt modelInfo writer with
  | inl writer' =>
      {| written := writer'; attempts := [modelInfo]; escaped := None |}
  | inr error =>
      match rm_fallback modelInfo with
      | Some fallbackInfo =>
          if isRecoverableModelError error then
            match runModel systemPrompt fallbackInfo writer with
            | inl writer' =>
                {| written := writer';
                   attempts := [modelInfo; fallbackInfo];
                   escaped := None |}
            | inr error' =>
                {| written := writer;
                   attempts := [modelInfo; fallbackInfo];
                   escaped := Some error' |}
            end
          else
            {| written := streamPlainText writer generationFailedMessage;
               attempts := [modelInfo];
               escaped := None |}
      | None =>
          {| written := streamPlainText writer generationFailedMessage;
             attempts := [modelInfo];
             escaped := None |}
      end
  end.

Definition execute (now : Z) (modelInfo : option ResolvedModel) : Agent Run :=
  admitted ← bumpRateLimit now;
  if negb admitted then
    mret {| written := streamPlainText [] rateLimitedMessage;
            attempts := []; escaped := None |}
  else
    match modelInfo with
    | None =>
        mret {| written := streamPlainText [] noModelMessage;
                attempts := []; escaped := None |}
    | Some modelInfo =>
        profile ← getProfile;
        today ← getDailyMacros now None;
        history ← getMealHistory localeCompare (Some 3);
        activePlan ← getLatestMealPlan;
        shoppingList ←
          (if truthyString (activePlan ≫= mp_shoppingListId)
           then getShoppingList (activePlan ≫= mp_shoppingListId)
           else getShoppingList None);
        let systemPrompt :=
          buildSystemPrompt
            {| ctx_profile := profile;
               ctx_today := today;
               ctx_history := history;
               ctx_activePlan := activePlan;
               ctx_shoppingList := shoppingList |} in
        mret (generate systemPrompt modelInfo [])
    end.

Definition onChatMessage (now : Z) (openaiKey : option string) : Agent Run :=
  execute now (resolveModel openaiKey).

End Generation.

(** ** The worker's [fetch] handler *)

Inductive JSON :=
  | JNull
  | JBool (b : bool)
  | JNumber (n : Z)
  | JString (s : string)
  | JArray (items : list JSON)
  | JObject (members : list (string * JSON)).

Record Response := {
  status : Z;
  body : JSON
}.

Inductive Method := GET | POST | OPTIONS | OtherMethod.

Record Request := {
  method : Method;
  pathname : string;
  (** [await request.json()]; [None] when the body does not parse *)
  json : option JSON
}.

(** [!body] *)
Definition falsy (v : JSON) : bool :=
  match v with
  | JNull => true
  | JBool b => negb b
  | JNumber n => n =? 0
  | JString s => String.eqb s EmptyString
  | _ => false
  end.

(** [typeof body === "object"], for a truthy [body] *)
Definition isObject (v : JSON) : bool :=
  match v with
  | JNull | JArray _ | JObject _ => true
  | _ => false
  end.

(** ["type" in body]: an array has index keys and [length] only. *)
Definition hasKey (key : string) (v : JSON) : bool :=
  match v with
  | JObject members => existsb (λ kv, String.eqb kv.1 key) members
  | _ => false
  end.

(** The outcome of a request: the response and the payloads handed to the
    job scheduler. The routes outside the core are left to their handlers. *)
Inductive Handled :=
  | Preflight
  | Health
  | Transcribe
  | Workflow (response : Response) (forwarded : list JSON)
  | Routed.

Definition isMethod (m m' : Method) : bool :=
  match m, m' with
  | GET, GET | POST, POST | OPTIONS, OPTIONS => true
  | _, _ => false
  end.

Section Worker.

(** [env.MEAL_PREP.create({ params })]: the identifier of the new
    instance, or a throw. *)
Variable create : JSON → Outcome string.

Definition triggerWorkflow (parsed : option JSON) : Response * list JSON :=
  match parsed with
  | None =>
      ({| status := 400;
          body := JObject [("error", JString "Failed to trigger workflow")] |},
       [])
  | Some body =>
      if falsy body || negb (isObject body) || negb (hasKey "type" body) then
        ({| status := 400;
            body := JObject [("error", JString "Invalid workflow payload")] |},
         [])
      else
        match create body with
        | Returned id =>
            ({| status := 202;
                body := JObject [("workflowId", JString id);
                                 ("status", JString "queued")] |},
             [body])
        | Thrown _ =>
            ({| status := 400;
                body :=
                  JObject [("error", JString "Failed to trigger workflow")] |},
             [body])
        end
  end.

Definition fetch (request : Request) : Handled :=
  if isMethod (method request) OPTIONS then Preflight
  else if String.eqb (pathname request) "/health" then Health
  else if String.eqb (pathname request) "/api/transcribe"
          && isMethod (method request) POST then Transcribe
  else if String.eqb (pathname request) "/trigger-workflow"
          && isMethod (method request) POST then
    let '(response, forwarded) := triggerWorkflow (json request) in
    Workflow response forwarded
  else Routed.

End Worker.

(** ** Narration of a stored shopping list ([onStepFinish])

    The branch of [onStepFinish] that runs after the [saveShoppingList]
    tool: its input has passed the tool's schema, so every item has a
    name, a quantity and an array of meal references. *)

(** [s || fallback] on strings *)
Definition orElse (s fallback : string) : string :=
  if String.eqb s EmptyString then fallback else s.

(** A [Map<string, V[]>] in insertion order: create the array of [key]
    when [key] is new, then [push] onto it. *)
Fixpoint pushTo {V} (key : string) (v : V) (m : list (string * list V))
  : list (string * list V) :=
  match m with
  | [] => [(key, [v])]
  | (k, vs) :: m' =>
      if String.eqb k key then (k, vs ++ [v]) :: m' else (k, vs) :: pushTo key v m'
  end.

(** The body of [items.forEach]. *)
Definition addItem (itemsByMeal : list (string * list (string * string)))
    (item : ShoppingListItem) : list (string * list (string * string)) :=
  let mealRefs := sli_mealReferences item in
  let itemName := orElse (sli_name item) "item" in
  let quantity := orElse (sli_quantity item) "1" in
  match mealRefs with
  | [] => pushTo "Other" (itemName, quantity) itemsByMeal
  | _ =>
      foldl (λ m mealRef, pushTo mealRef (itemName, quantity) m)
        itemsByMeal mealRefs
  end.

Definition itemsByMeal (items : list ShoppingListItem)
  : list (string * list (string * string)) :=
  foldl addItem [] items.

Definition newline : string := String (ascii_of_nat 10) EmptyString.

(** The text streamed after [saveShoppingList]. *)
Definition shoppingListNarration (items : list ShoppingListItem) : string :=
  match items with
  | [] => newline +:+ newline +:+ "No items in the shopping list!"
  | _ =>
      foldl
        (λ output group,
           foldl
             (λ output item,
                output +:+ "  • " +:+ item.1 +:+ " - " +:+ item.2 +:+ newline)
             (output +:+ "**" +:+ group.1 +:+ ":**" +:+ newline)
             group.2
           +:+ newline)
        (newline +:+ newline +:+ "**Your shopping list is ready!**"
           +:+ newline +:+ newline)
        (itemsByMeal items)
  end.

(** ** Conversation clean-up ([src/utils.ts]) *)

Record UIPart := {
  part_type : string;
  part_state : option string
}.

Record UIMessage := {
  msg_id : string;
  msg_role : string;
  msg_parts : option (list UIPart)
}.

Section Messages.

(** [isToolUIPart] of the [ai] package. *)
Variable isToolUIPart : UIPart → bool.

Definition hasIncompleteToolCall (parts : list UIPart) : bool :=
  existsb
    (λ part,
       if negb (isToolUIPart part) then false
       else bool_decide (part_state part = Some "input-streaming"))
    parts.

Definition keepsMessage (message : UIMessage) : bool :=
  match msg_parts message with
  | None => true
  | Some parts => negb (hasIncompleteToolCall parts)
  end.

Definition cleanupMessages (messages : list UIMessage) : list UIMessage :=
  filter (λ message, keepsMessage message = true) messages.

End Messages.

(** ** Account reset ([GainChefAgent.fetch], [clearAllData]) *)

(** The agent's durable state: its storage and its conversation. *)
Record Session := {
  storage : Store;
  messages : list UIMessage
}.

(** [storage.deleteAll()], [this.messages = []], [saveMessages([])] *)
Definition clearAllData (session : Session) : Session :=
  {| storage := ∅; messages := [] |}.

(** The agent's own [fetch]: the reset hook, or the request handed on to
    [super.fetch]. *)
Inductive AgentHandled :=
  | ResetDone (response : Response)
  | Super.

Definition agentFetch (request : Request) (session : Session)
  : AgentHandled * Session :=
  if String.eqb (pathname request) "/api/agent/reset"
     && isMethod (method request) POST
  then
    (ResetDone
       {| status := 200;
          body := JObject [("success", JBool true);
                           ("message", JString "All data cleared")] |},
     clearAllData session)
  else (Super, session).

(** ** The workflow ([src/workflow.ts])

    The payload as [run] sees it at run time: an object whose [type] is
    any string and whose other fields may be missing. The steps run as in
    the step stub of [tests/workflow.test.ts]: [step.do] calls its handler
    once and [step.sleep] resolves. *)
Module MealPrepWorkflow.

Record WorkflowPayload := {
  wp_type : string;
  wp_userId : option string;
  wp_weekOf : option string;
  wp_date : option string;
  wp_month : option string
}.

Record WorkflowEvent := {
  ev_name : string;
  ev_note : string;
  ev_timestamp : Z
}.

Inductive StepCall :=
  | StepDo (name : string)
  | StepSleep (name duration : string).

Record WorkflowRun := {
  wf_events : list WorkflowEvent;
  wf_steps : list StepCall
}.

Record WorkflowResult := {
  res_status : string;
  res_events : list WorkflowEvent
}.

(** [`${value}`] of a field that may be missing *)
Definition interpolate (value : option string) : string := value ?? "undefined".

Section Workflow.

(** [clock n] is what the [n]-th call of [Date.now()] returns. *)
Variable clock : nat → Z.

(** [step.do(step, async () => { record(name, note) })] *)
Definition doRecord (step name note : string) (r : WorkflowRun) : WorkflowRun :=
  {| wf_events :=
       wf_events r ++
       [{| ev_name := name; ev_note := note;
           ev_timestamp := clock (length (wf_events r)) |}];
     wf_steps := wf_steps r ++ [StepDo step] |}.

(** [step.sleep(name, duration)] *)
Definition doSleep (name duration : string) (r : WorkflowRun) : WorkflowRun :=
  {| wf_events := wf_events r; wf_steps := wf_steps r ++ [StepSleep name duration] |}.

Definition runSteps (payload : WorkflowPayload) : WorkflowRun :=
  let r := {| wf_events := []; wf_steps := [] |} in
  let r :=
    if String.eqb (wp_type payload) "weekly_meal_prep" then
      doRecord "queue-reminders" "reminders-scheduled"
        "Scheduled reminders for grocery shopping and prep"
        (doRecord "generate-plan" "plan-generated"
           ("Generated weekly plan for week of " +:+ interpolate (wp_weekOf payload))
           (doRecord "prep-profile" "profile-snapshot"
              ("Loaded profile for " +:+ interpolate (wp_userId payload)
                 +:+ " to build weekly plan")
              r))
    else r in
  let r :=
    if String.eqb (wp_type payload) "daily_macro_check" then
      doRecord "send-summary" "summary-sent"
        ("Queued daily progress message for " +:+ interpolate (wp_userId payload))
        (doRecord "aggregate-metrics" "macros-calculated"
           ("Compiled macro totals for " +:+ interpolate (wp_date payload))
           r)
    else r in
  let r :=
    if String.eqb (wp_type payload) "monthly_report" then
      doRecord "deliver-report" "report-delivered"
        ("Sent monthly analysis to " +:+ interpolate (wp_userId payload))
        (doSleep "cool-down" "10 seconds"
           (doRecord "gather-history" "history-compiled"
              ("Compiled monthly stats for " +:+ interpolate (wp_month payload))
              r))
    else r in
  r.

(** [MealPrepWorkflow.run] *)
Definition run (payload : WorkflowPayload) : WorkflowResult :=
  {| res_status := "completed"; res_events := wf_events (runSteps payload) |}.

End Workflow.

End MealPrepWorkflow.

(** * Vocabulary of the properties *)

(** Successive [admit()] calls, one per time of [times]. *)
Definition admitAll (times : list Z) : Agent (list bool) :=
  mapAll bumpRateLimit times.

(** The answers of [n] calls inside the window, from a count of [c]. *)
Fixpoint answers (c : Z) (n : nat) : list bool :=
  match n with
  | O => []
  | S n' =>
      if c >=? RATE_LIMIT_MAX_REQUESTS then false :: answers c n'
      else true :: answers (c + 1) n'
  end.

(** A meal plan with its back-link set, [{...plan, shoppingListId}]. *)
Definition withShoppingList (plan : MealPlan) (listId : string) : MealPlan :=
  {| mp_id := mp_id plan;
     mp_createdAt := mp_createdAt plan;
     mp_timeframe := mp_timeframe plan;
     mp_days := mp_days plan;
     mp_shoppingListId := Some listId |}.

(** The identifier and the list that [saveShoppingList] builds from its
    input. *)
Definition listIdOf (now : Z) (uuid : option string) (input : ShoppingListInput)
  : string :=
  in_listId input ??
    match uuid with Some u => u | None => "shopping_" +:+ JS.show now end.

Definition listOf (now : Z) (uuid : option string) (input : ShoppingListInput)
  : ShoppingList :=
  {| sl_id := listIdOf now uuid input;
     sl_createdAt := now;
     sl_timeframe := in_listTimeframe input;
     sl_items := in_items input |}.

(** The input and the store of the shopping-list counterexample: the
    active plan was saved with the empty identifier, and the list names
    that plan. *)
Definition unnamedPlan : MealPlan :=
  {| mp_id := EmptyString; mp_createdAt := 1; mp_timeframe := daily;
     mp_days := []; mp_shoppingListId := None |}.

Definition listForUnnamedPlan : ShoppingListInput :=
  {| in_listId := Some "list-1"; in_listPlanId := Some EmptyString;
     in_listTimeframe := daily;
     in_items := [ {| sli_name := "eggs"; sli_quantity := "12";
                      sli_mealReferences := ["Breakfast"] |} ] |}.

(** A method that writes nothing: whatever it returns or throws, the
    store it leaves behind is the store it was given. *)
Definition readOnly {A} (m : Agent A) : Prop := ∀ s : Store, (m s).2 = s.

(** The update [{...input}] of a profile field by a parsed input. *)
Definition merged {A} (existing : prop A) (input : option A) : option A :=
  match input with Some v => Some v | None => read existing end.

(** The stored profile and the two updates of the profile examples. *)
Definition storedProfile : UserProfile :=
  {| up_id := Absent; up_name := Defined "Sam"; up_goalType := Defined bulking;
     up_weight := Defined 180; up_targetWeight := Absent;
     up_heightInches := Absent; up_age := Absent; up_sex := Absent;
     up_activityLevel := Absent;
     up_macroTargets :=
       Defined {| protein := 150; carbs := 200; fat := 60; calories := 2000 |};
     up_restrictions := Absent; up_preferences := Absent;
     up_timezone := Absent; up_updatedAt := Defined 1 |}.

Definition noUpdate : ProfileUpdateInput :=
  {| in_name := None; in_goalType := None; in_weight := None;
     in_targetWeight := None; in_heightInches := None; in_age := None;
     in_sex := None; in_activityLevel := None; in_macroTargets := None;
     in_restrictions := None; in_preferences := None; in_timezone := None |}.

(** [{ macroTargets: { protein: 180 } }] *)
Definition proteinOnly : ProfileUpdateInput :=
  {| in_name := None; in_goalType := None; in_weight := None;
     in_targetWeight := None; in_heightInches := None; in_age := None;
     in_sex := None; in_activityLevel := None;
     in_macroTargets :=
       Some {| in_targetProtein := Some 180; in_targetCarbs := None;
               in_targetFat := None; in_targetCalories := None |};
     in_restrictions := None; in_preferences := None; in_timezone := None |}.

(** [{ weight: 175 }] *)
Definition weightOnly : ProfileUpdateInput :=
  {| in_name := None; in_goalType := None; in_weight := Some 175;
     in_targetWeight := None; in_heightInches := None; in_age := None;
     in_sex := None; in_activityLevel := None; in_macroTargets := None;
     in_restrictions := None; in_preferences := None; in_timezone := None |}.

(** A [days] argument that the schema of [getProgress] accepts: left
    out, or an integer from 1 to 30. *)
Definition validDays (raw : option Z) : Prop :=
  match raw with Some d => 1 ≤ d ≤ 30 | None => True end.

(** A time value that [Date] can represent. *)
Definition validTime (t : Z) : Prop :=
  - ISODate.maxTime ≤ t ≤ ISODate.maxTime.

(** [sub] occurs in [s]. *)
Definition contains (s sub : string) : Prop :=
  ∃ pre post, s = pre +:+ sub +:+ post.

(** A backend on which the first model fails for want of the model and
    the second answers. *)
Definition primaryModel : ResolvedModel :=
  {| rm_provider := "workers-ai:llama-3.3"; rm_supportsTools := true;
     rm_fallback :=
       Some {| rm_provider := "workers-ai:llama-3.1"; rm_supportsTools := false;
               rm_fallback := None |} |}.

Definition missingModelBackend (info : ResolvedModel) (prompt : string)
  : option Exn :=
  if rm_supportsTools info
  then Some (Err "Error" "5007: No such model @cf/meta/llama-3.3")
  else None.

(** A [POST /trigger-workflow] request. *)
Definition triggerRequest (parsed : option JSON) : Request :=
  {| method := POST; pathname := "/trigger-workflow"; json := parsed |}.

(** The three tags of [WorkflowPayload]. *)
Definition knownTag (tag : string) : Prop :=
  tag = "weekly_meal_prep" ∨ tag = "daily_macro_check" ∨ tag = "monthly_report".

(** The value of the first member named [key]. *)
Fixpoint member (key : string) (members : list (string * JSON)) : option JSON :=
  match members with
  | [] => None
  | (k, v) :: rest => if String.eqb k key then Some v else member key rest
  end.

(** A payload whose [type] is one of the three known tags. *)
Definition wellFormedPayload (body : JSON) : Prop :=
  ∃ members tag,
    body = JObject members ∧ member "type" members = Some (JString tag) ∧
    knownTag tag.

(** A body that is a JSON object with a [type] member, whatever its
    value. *)
Definition taggedObject (body : JSON) : Prop :=
  ∃ members, body = JObject members ∧ is_Some (member "type" members).

Definition invalidPayload : Response :=
  {| status := 400;
     body := JObject [("error", JString "Invalid workflow payload")] |}.

Definition triggerFailed : Response :=
  {| status := 400;
     body := JObject [("error", JString "Failed to trigger workflow")] |}.

Definition queued (id : string) : Response :=
  {| status := 202;
     body := JObject [("workflowId", JString id); ("status", JString "queued")] |}.

(** The UTC calendar date of a time value: the first ten characters of
    its ISO rendering. *)
Definition dateOf (t : Z) : option string :=
  String.substring 0 10 <$> ISODate.datePart t.

(** The calendar date of a time value on the wall clock of a session
    whose zone is [utcOffsetMinutes] ahead of UTC at that time: the date
    "in the session's locale". *)
Definition localeDateString (utcOffsetMinutes : Z) (t : Z) : option string :=
  dateOf (t + utcOffsetMinutes * 60000).

(** One call of [logMeal], with the clock and the identifier source it
    runs against. *)
Record LogCall := {
  call_now : Z;
  call_uuid : option string;
  call_meal : MealLogArg
}.

Definition callTime (c : LogCall) : Z :=
  arg_timestamp (call_meal c) ?? call_now c.

(** The [MealLog] that a call of [logMeal] stores. *)
Definition loggedMeal (now : Z) (uuid : option string) (meal : MealLogArg)
  : MealLog :=
  {| ml_id :=
       arg_id meal ??
         match uuid with
         | Some u => u
         | None => "meal_" +:+ JS.show (arg_timestamp meal ?? now)
         end;
     ml_timestamp := arg_timestamp meal ?? now;
     ml_food := arg_food meal;
     ml_mealType := arg_mealType meal;
     ml_protein := arg_protein meal;
     ml_carbs := arg_carbs meal;
     ml_fat := arg_fat meal;
     ml_calories := arg_calories meal;
     ml_notes := arg_notes meal |}.

Definition callMeal (c : LogCall) : MealLog :=
  loggedMeal (call_now c) (call_uuid c) (call_meal c).

(** Successive [logMeal] calls. *)
Definition logAll (localeCompare : string → string → Z) (calls : list LogCall)
  : Agent (list DailyMacros) :=
  mapAll (λ c, logMeal localeCompare (call_now c) (call_uuid c) (call_meal c))
    calls.

(** The meals stored for a date, and the totals stored for it. *)
Definition mealsOn (s : Store) (date : string) : list MealLog :=
  match asDaily (s !! getDailyKey date) with
  | Some day => dm_meals day
  | None => []
  end.

Definition totalsOn (s : Store) (date : string) : option MacroTargets :=
  dm_totals <$> asDaily (s !! getDailyKey date).

(** The field-wise sum of a list of meals. *)
Definition sumOf (field : MealLog → Z) (meals : list MealLog) : Z :=
  foldr (λ meal acc, field meal + acc) 0 meals.

Definition totalOf (meals : list MealLog) : MacroTargets :=
  {| protein := sumOf ml_protein meals;
     carbs := sumOf ml_carbs meals;
     fat := sumOf ml_fat meals;
     calories := sumOf ml_calories meals |}.

(** The dates index that [updateMealDates(date)] stores over [dates]. *)
Definition nextDates (localeCompare : string → string → Z) (date : string)
    (dates : list string) : list string :=
  JS.slice0 MAX_STORED_MEAL_HISTORY
    (JS.sort (λ a b, localeCompare b a)
       (if bool_decide (date ∈ dates) then dates else dates ++ [date])).

(** The dates index of a store. *)
Definition datesOf (s : Store) : list string := asDates (s !! MEAL_DATES) ?? [].

(** [x] may stand before [y] in an array sorted by [cmp]. *)
Definition inOrder {A} (cmp : A → A → Z) (x y : A) : Prop := cmp x y ≤ 0.

(** The calls of the scenario: three eggs at 08:00 UTC and a toast at
    08:05 UTC on 2025-10-13, as the [logMeal] tool issues them. *)
Definition toolCall (now : Z) (food : string) (p c f k : Z) : LogCall :=
  {| call_now := now;
     call_uuid := Some "00000000-0000-4000-8000-000000000000";
     call_meal :=
       {| arg_id := Some EmptyString; arg_timestamp := Some now;
          arg_food := food; arg_mealType := None;
          arg_protein := p; arg_carbs := c; arg_fat := f; arg_calories := k;
          arg_notes := None |} |}.

Definition eggs : LogCall := toolCall 1760342400000 "3 eggs" 18 1 15 210.
Definition toast : LogCall := toolCall 1760342700000 "toast" 4 24 2 140.

(** A session in Berlin: its wall clock is 120 minutes ahead of UTC in
    October. *)
Definition berlinSession : Store :=
  {[ PROFILE :=
       VProfile
         {| up_id := Absent; up_name := Absent; up_goalType := Absent;
            up_weight := Absent; up_targetWeight := Absent;
            up_heightInches := Absent; up_age := Absent; up_sex := Absent;
            up_activityLevel := Absent; up_macroTargets := Absent;
            up_restrictions := Absent; up_preferences := Absent;
            up_timezone := Defined "Europe/Berlin"; up_updatedAt := Absent |} ]}.

(** A late snack, eaten at 23:30 UTC on 2025-10-13, which is 01:30 on
    2025-10-14 in Berlin. *)
Definition lateSnack : LogCall := toolCall 1760398200000 "yogurt" 10 8 3 100.

(** The comparator that [updateMealDates] sorts with: most recent first. *)
Definition descending (localeCompare : string → string → Z) (a b : string) : Z :=
  localeCompare b a.

(** [index] is what the dates index must be once the dates [seen] have
    been logged: sorted most recent first, without duplicates, at most 30
    dates, all of them logged, and a logged date is missing only when the
    index is full and holds no older date. *)
Definition indexOf (localeCompare : string → string → Z)
    (seen index : list string) : Prop :=
  StronglySorted (inOrder (descending localeCompare)) index ∧
  NoDup index ∧
  (length index ≤ 30)%nat ∧
  (∀ x, x ∈ index → x ∈ seen) ∧
  (∀ d, d ∈ seen → d ∉ index →
     length index = 30%nat ∧ ∀ x, x ∈ index → localeCompare d x ≤ 0).

(** The dates of successive [logMeal] calls. *)
Definition callDates (calls : list LogCall) (dates : list string) : Prop :=
  Forall2 (λ c d, dateOf (callTime c) = Some d) calls dates.

(** Comparison of strings by code units, which is how every collation
    orders the dates [YYYY-MM-DD]. *)
Definition codeUnitCompare (a b : string) : Z :=
  match String.compare a b with
  | Lt => -1
  | Eq => 0
  | Gt => 1
  end.

(** One meal a day at noon UTC, on the first [n] days of 1970, the
    latest day first. *)
Fixpoint dailyCalls (n : nat) : list LogCall :=
  match n with
  | O => []
  | S n' =>
      toolCall (Z.of_nat n' * ISODate.msPerDay + 43200000) "oats" 10 50 5 300
        :: dailyCalls n'
  end.

(** A method that writes no key outside [keys]. *)
Definition writesOnly {A} (keys : list string) (m : Agent A) : Prop :=
  ∀ (s : Store) key, key ∉ keys → (m s).2 !! key = s !! key.

(** The rate-limit record of a store. *)
Definition rateOf (s : Store) : option RateLimitRecord :=
  asRate (s !! RATE_LIMIT).

(** The runs of the two gates of a chat turn. *)
Definition rejectedRun : Run :=
  {| written := streamPlainText [] rateLimitedMessage;
     attempts := []; escaped := None |}.

Definition unavailableRun : Run :=
  {| written := streamPlainText [] noModelMessage;
     attempts := []; escaped := None |}.

(** A backend that always fails for want of the model. *)
Definition failingBackend (info : ResolvedModel) (prompt : string) : option Exn :=
  Some (Err "Error" "No such model").

(** The shopping lists and the plan history of a store. *)
Definition listsOf (s : Store) : list (string * ShoppingList) :=
  asLists (s !! SHOPPING_LISTS) ?? [].

Definition historyOf (s : Store) : list MealPlan :=
  asPlans (s !! MEAL_PLAN_HISTORY) ?? [].

(** Successive [saveMealPlan] calls. *)
Definition saveAll (plans : list MealPlan) : Agent (list unit) :=
  mapAll saveMealPlan plans.

(** The comparator of [getShoppingList]: latest creation first. *)
Definition latestFirst (a b : ShoppingList) : Z := sl_createdAt b - sl_createdAt a.

(** The comparator of [logMeal]: earliest meal first. *)
Definition earliestFirst (a b : MealLog) : Z := ml_timestamp a - ml_timestamp b.

(** The day that [getDailyMacros] makes up for a date without meals. *)
Definition emptyDay (date : string) : DailyMacros :=
  {| dm_date := date; dm_meals := []; dm_totals := EMPTY_TOTALS |}.

(** The meal that the [logMeal] tool hands to the agent. *)
Definition toolMeal (now : Z) (input : MealLogInput) : MealLog :=
  {| ml_id := EmptyString;
     ml_timestamp := now;
     ml_food := in_food input;
     ml_mealType := in_mealType input;
     ml_protein := in_protein input;
     ml_carbs := in_carbs input;
     ml_fat := in_fat input;
     ml_calories := in_calories input;
     ml_notes := in_notes input |}.

(** A meal whose timestamp [Date] cannot represent. *)
Definition timelessMeal : MealLogArg :=
  {| arg_id := None; arg_timestamp := Some 9000000000000000;
     arg_food := "soup"; arg_mealType := None;
     arg_protein := 1; arg_carbs := 2; arg_fat := 3; arg_calories := 40;
     arg_notes := None |}.

(** The entry an item contributes to its groups, the groups it goes to,
    and the entries of a group. *)
Definition labelOf (item : ShoppingListItem) : string * string :=
  (orElse (sli_name item) "item", orElse (sli_quantity item) "1").

Definition bucketsOf (item : ShoppingListItem) : list string :=
  match sli_mealReferences item with
  | [] => ["Other"]
  | refs => refs
  end.

Definition groupOf {V} (key : string) (m : list (string * list V)) : list V :=
  Obj.get key m ?? [].

(** A message with a tool part whose input is still streaming. *)
Definition incomplete (isToolUIPart : UIPart → bool) (message : UIMessage) : Prop :=
  ∃ parts part,
    msg_parts message = Some parts ∧ part ∈ parts ∧
    isToolUIPart part = true ∧ part_state part = Some "input-streaming".

(** A [POST /api/agent/reset] request. *)
Definition resetRequest : Request :=
  {| method := POST; pathname := "/api/agent/reset"; json := None |}.

Definition resetResponse : Response :=
  {| status := 200;
     body := JObject [("success", JBool true);
                      ("message", JString "All data cleared")] |}.

(** The number of events that a workflow of a given type records. *)
Definition eventCount (type : string) : nat :=
  if String.eqb type "weekly_meal_prep" then 3
  else if String.eqb type "daily_macro_check" then 2
  else if String.eqb type "monthly_report" then 2
  else 0.

Definition isDo (call : MealPrepWorkflow.StepCall) : bool :=
  match call with
  | MealPrepWorkflow.StepDo _ => true
  | MealPrepWorkflow.StepSleep _ _ => false
  end.

(** The plan that the [saveMealPlan] tool builds from its input. *)
Definition planIdOf (now : Z) (uuid : option string) (input : MealPlanInput)
  : string :=
  in_planId input ??
    match uuid with Some u => u | None => "plan_" +:+ JS.show now end.

Definition planOf (now : Z) (uuid : option string) (input : MealPlanInput)
  : MealPlan :=
  {| mp_id := planIdOf now uuid input;
     mp_createdAt := now;
     mp_timeframe := in_planTimeframe input;
     mp_days := in_days input;
     mp_shoppingListId := in_shoppingListId input |}.

(** The number of [true] among the answers of the rate limiter. *)
Definition admittedCount (answers : list bool) : nat :=
  length (filter (λ b, b = true) answers).

(** * Properties *)

(** Unfolding the monad of the agent. *)
Ltac run :=
unfold mbind, mret, fmap, Agent_bind, Agent_ret, Agent_fmap, throw,
  storageGet, storagePut in *;
simpl in *.

(** ** The rate limiter *)

(** What [bumpRateLimit] computes from the stored record. *)
Lemma bumpRateLimit_unfold now (s : Store) :
  bumpRateLimit now s =
    let record :=
      asRate (s !! RATE_LIMIT) ??
        {| rl_count := 0; rl_reset := now + RATE_LIMIT_WINDOW_MS |} in
    let record :=
      if now >? rl_reset record
      then {| rl_count := 0; rl_reset := now + RATE_LIMIT_WINDOW_MS |}
      else record in
    if rl_count record >=? RATE_LIMIT_MAX_REQUESTS
    then (Returned false, <[RATE_LIMIT := VRate record]> s)
    else (Returned true,
          <[RATE_LIMIT :=
              VRate {| rl_count := rl_count record + 1;
                       rl_reset := rl_reset record |}]> s).
Proof.
  unfold bumpRateLimit. run.
  destruct (asRate (s !! RATE_LIMIT)) as [[c r]|]; simpl;
    repeat (case_match; simpl); reflexivity.
Qed.

Lemma bumpRateLimit_within now (s : Store) c r :
  asRate (s !! RATE_LIMIT) = Some {| rl_count := c; rl_reset := r |} →
  now ≤ r →
  bumpRateLimit now s =
    if c >=? RATE_LIMIT_MAX_REQUESTS
    then (Returned false,
          <[RATE_LIMIT := VRate {| rl_count := c; rl_reset := r |}]> s)
    else (Returned true,
          <[RATE_LIMIT := VRate {| rl_count := c + 1; rl_reset := r |}]> s).
Proof.
  intros Hs Hnow. rewrite bumpRateLimit_unfold, Hs. simpl.
  replace (now >? r) with false by lia. reflexivity.
Qed.

Lemma admitAll_within times : ∀ (s : Store) c r,
  asRate (s !! RATE_LIMIT) = Some {| rl_count := c; rl_reset := r |} →
  Forall (λ t, t ≤ r) times →
  (admitAll times s).1 = Returned (answers c (length times)).
Proof.
  induction times as [|t times IH]; intros s c r Hs Hin; [reflexivity|].
  apply Forall_cons in Hin as [Ht Hin].
  unfold admitAll in *. cbn [mapAll length answers].
  unfold mbind at 1, Agent_bind.
  rewrite (bumpRateLimit_within t s c r Hs Ht).
  destruct (c >=? RATE_LIMIT_MAX_REQUESTS) eqn:Hc.
  - unfold mbind, Agent_bind.
    specialize (IH (<[RATE_LIMIT := VRate {| rl_count := c; rl_reset := r |}]> s) c r).
    rewrite lookup_insert_eq in IH. specialize (IH eq_refl Hin).
    destruct (mapAll bumpRateLimit times _) as [[l|e] s'];
      simpl in *; congruence.
  - unfold mbind, Agent_bind.
    specialize (IH (<[RATE_LIMIT := VRate {| rl_count := c + 1; rl_reset := r |}]> s)
                  (c + 1) r).
    rewrite lookup_insert_eq in IH. specialize (IH eq_refl Hin).
    destruct (mapAll bumpRateLimit times _) as [[l|e] s'];
      simpl in *; congruence.
Qed.

(** C2. Rate limiter window, cap 20 and window 10 minutes. From a store
    with no rate-limit record, 21 [admit()] calls whose times all lie
    within the window opened by the first one return [true] for calls 1
    to 20 and [false] for call 21. And a call made strictly after the
    stored reset time stores a counter restarted in a new window
    [now + 10 minutes] (the admitted call being its first request) and
    returns [true]. *)
Theorem rate_limit_window :
  RATE_LIMIT_MAX_REQUESTS = 20 ∧ RATE_LIMIT_WINDOW_MS = 600000 ∧
  (∀ (s : Store) (first : Z) (later : list Z),
      s !! RATE_LIMIT = None →
      length later = 20%nat →
      Forall (λ t, t ≤ first + RATE_LIMIT_WINDOW_MS) later →
      (admitAll (first :: later) s).1 = Returned (replicate 20 true ++ [false])) ∧
  (∀ (s : Store) (record : RateLimitRecord) (now : Z),
      s !! RATE_LIMIT = Some (VRate record) →
      now > rl_reset record →
      bumpRateLimit now s =
        (Returned true,
         <[RATE_LIMIT :=
             VRate {| rl_count := 1;
                      rl_reset := now + RATE_LIMIT_WINDOW_MS |}]> s)).
Proof.
  split; [reflexivity|]. split; [reflexivity|]. split.
  - intros s first later Hs Hlen Hin.
    unfold admitAll. cbn [mapAll].
    unfold mbind at 1, Agent_bind. rewrite bumpRateLimit_unfold, Hs. simpl.
    replace (first >? first + RATE_LIMIT_WINDOW_MS) with false
      by (unfold RATE_LIMIT_WINDOW_MS; lia).
    simpl.
    pose proof (admitAll_within later
      (<[RATE_LIMIT :=
           VRate {| rl_count := 0 + 1;
                    rl_reset := first + RATE_LIMIT_WINDOW_MS |}]> s)
      (0 + 1) (first + RATE_LIMIT_WINDOW_MS)) as H.
    rewrite lookup_insert_eq in H. specialize (H eq_refl Hin).
    unfold admitAll in H. unfold mbind, Agent_bind.
    destruct (mapAll bumpRateLimit later _) as [[l|e] s'];
      simpl in *; [|congruence].
    rewrite Hlen in H. vm_compute in H. injection H as ->. reflexivity.
  - intros s [c r] now Hs Hnow. simpl in Hnow.
    rewrite bumpRateLimit_unfold, Hs. cbn.
    replace (now >? r) with true by lia. reflexivity.
Qed.

(** The theorem at work: 21 calls one second apart, then a call eleven
    minutes after the first. *)
Lemma rate_limit_window_witness :
  (admitAll (1000 :: ((λ i, 1000 + 1000 * Z.of_nat i) <$> seq 1 20)) ∅).1
    = Returned (replicate 20 true ++ [false]) ∧
  bumpRateLimit 661000
    {[ RATE_LIMIT := VRate {| rl_count := 20; rl_reset := 601000 |} ]}
    = (Returned true,
       <[RATE_LIMIT := VRate {| rl_count := 1; rl_reset := 1261000 |}]>
         {[ RATE_LIMIT := VRate {| rl_count := 20; rl_reset := 601000 |} ]}).
Proof.
  destruct rate_limit_window as (_ & _ & Hwin & Hreset). split.
  - apply Hwin; [reflexivity | reflexivity |].
    repeat (apply Forall_cons; split; [vm_compute; discriminate|]).
    apply Forall_nil_2.
  - apply (Hreset _ {| rl_count := 20; rl_reset := 601000 |} 661000).
    + reflexivity.
    + simpl. lia.
Defined.

(** ** Meal plans *)

Lemma saveMealPlan_unfold plan (s : Store) :
  saveMealPlan plan s =
    (Returned tt,
     <[MEAL_PLAN_HISTORY :=
         VPlans (JS.slice0 MAX_MEAL_PLAN_HISTORY
                   (plan :: filter (λ item, mp_id item ≠ mp_id plan)
                              (asPlans (s !! MEAL_PLAN_HISTORY) ?? [])))]>
       (<[MEAL_PLAN_ACTIVE := VPlan plan]> s)).
Proof.
  unfold saveMealPlan. run.
  rewrite lookup_insert_ne by discriminate. reflexivity.
Qed.

(** C5. Plan history dedup. For every store and every plan [p],
    [saveMealPlan(p)] returns, makes [p] the active plan, and leaves a
    history that starts with [p], continues with the first four earlier
    entries whose id differs from [p]'s (so no other entry carries [p]'s
    id: an entry with that id is replaced, not duplicated), and has at most
    five entries. *)
Theorem plan_history_dedup (s : Store) (p : MealPlan) :
  let s' := (saveMealPlan p s).2 in
  let before := asPlans (s !! MEAL_PLAN_HISTORY) ?? [] in
  (saveMealPlan p s).1 = Returned tt ∧
  getLatestMealPlan s' = (Returned (Some p), s') ∧
  ∃ rest,
    s' !! MEAL_PLAN_HISTORY = Some (VPlans (p :: rest)) ∧
    rest = take 4 (filter (λ item, mp_id item ≠ mp_id p) before) ∧
    (∀ q, q ∈ rest → mp_id q ≠ mp_id p) ∧
    (∀ q, q ∈ rest → q ∈ before) ∧
    (length (p :: rest) ≤ 5)%nat.
Proof.
  intros s' before. subst s'. rewrite saveMealPlan_unfold. cbn [fst snd].
  split; [reflexivity|]. split.
  { unfold getLatestMealPlan. run.
    rewrite lookup_insert_ne by discriminate.
    rewrite lookup_insert_eq. reflexivity. }
  exists (take 4 (filter (λ item, mp_id item ≠ mp_id p) before)).
  split; [rewrite lookup_insert_eq; reflexivity|].
  split; [reflexivity|].
  assert (Hin : ∀ q,
    q ∈ take 4 (filter (λ item, mp_id item ≠ mp_id p) before) →
    q ∈ filter (λ item, mp_id item ≠ mp_id p) before).
  { intros q Hq. eapply subseteq_take, Hq. }
  split; [|split].
  - intros q Hq. apply Hin, list_elem_of_filter in Hq. tauto.
  - intros q Hq. apply Hin, list_elem_of_filter in Hq. tauto.
  - cbn [length]. rewrite length_take. lia.
Qed.

(** ** Shopping lists *)

Lemma Obj_get_assign {V} k (v : V) o : Obj.get k (Obj.assign k v o) = Some v.
Proof.
  induction o as [|[k' v'] o IH]; simpl.
  - rewrite String.eqb_refl. reflexivity.
  - destruct (String.eqb k' k) eqn:E; simpl; rewrite E; auto.
Qed.

Lemma saveShoppingList_unfold list (s : Store) :
  saveShoppingList list s =
    (Returned tt,
     <[SHOPPING_LISTS :=
         VLists (Obj.assign (sl_id list) list
                   (asLists (s !! SHOPPING_LISTS) ?? []))]> s).
Proof. reflexivity. Qed.

(** The store that the [saveShoppingList] tool leaves behind. *)
Lemma tool_saveShoppingList_store now uuid input (s : Store) :
  let listId := listIdOf now uuid input in
  let s1 :=
    <[SHOPPING_LISTS :=
        VLists (Obj.assign listId (listOf now uuid input)
                  (asLists (s !! SHOPPING_LISTS) ?? []))]> s in
  ∃ message,
    tool_saveShoppingList true now uuid input s =
      (Returned message,
       if truthyString (in_listPlanId input) then
         match asPlan (s !! MEAL_PLAN_ACTIVE) with
         | Some latest =>
             if bool_decide (Some (mp_id latest) = in_listPlanId input)
             then (saveMealPlan (withShoppingList latest listId) s1).2
             else s1
         | None => s1
         end
       else s1).
Proof.
  intros listId s1. unfold tool_saveShoppingList. cbn [negb].
  unfold mbind at 1, Agent_bind at 1.
  rewrite saveShoppingList_unfold. fold (listIdOf now uuid input).
  fold (listOf now uuid input). cbn [sl_id listOf]. fold listId. fold s1.
  destruct (truthyString (in_listPlanId input)); [|eexists; reflexivity].
  unfold getLatestMealPlan, mbind, Agent_bind, fmap, Agent_fmap, storageGet.
  replace (s1 !! MEAL_PLAN_ACTIVE) with (s !! MEAL_PLAN_ACTIVE)
    by (unfold s1; rewrite lookup_insert_ne by discriminate; reflexivity).
  destruct (asPlan (s !! MEAL_PLAN_ACTIVE)) as [latest|]; [|eexists; reflexivity].
  case_bool_decide; [|eexists; reflexivity].
  fold (withShoppingList latest listId).
  rewrite saveMealPlan_unfold. eexists; reflexivity.
Qed.

(** C10, as amended. The [saveShoppingList] tool stores the list in the
    shopping-lists map under its id in every case. When it is given a
    non-empty [planId] equal to the id of the active meal plan, the active
    plan becomes that plan with [shoppingListId] set to the new list's id.
    When [planId] is not the id of the active plan (or there is no active
    plan, or no [planId]), the active plan and the plan history are left
    as they were. *)
Theorem shopping_list_backlink (s : Store) (now : Z) (uuid : option string)
    (input : ShoppingListInput) :
  let s' := (tool_saveShoppingList true now uuid input s).2 in
  let listId := listIdOf now uuid input in
  (asLists (s' !! SHOPPING_LISTS) ≫= Obj.get listId)
    = Some (listOf now uuid input) ∧
  (∀ planId latest,
      in_listPlanId input = Some planId →
      planId ≠ EmptyString →
      asPlan (s !! MEAL_PLAN_ACTIVE) = Some latest →
      mp_id latest = planId →
      s' !! MEAL_PLAN_ACTIVE = Some (VPlan (withShoppingList latest listId))) ∧
  ((∀ latest, asPlan (s !! MEAL_PLAN_ACTIVE) = Some latest →
              Some (mp_id latest) ≠ in_listPlanId input) →
      s' !! MEAL_PLAN_ACTIVE = s !! MEAL_PLAN_ACTIVE ∧
      s' !! MEAL_PLAN_HISTORY = s !! MEAL_PLAN_HISTORY).
Proof.
  intros s' listId. subst s'.
  destruct (tool_saveShoppingList_store now uuid input s) as [message ->].
  cbn [snd]. fold listId.
  set (s1 := <[SHOPPING_LISTS := _]> s).
  assert (Hlists : ∀ plan,
    (asLists ((saveMealPlan plan s1).2 !! SHOPPING_LISTS) ≫= Obj.get listId)
      = Some (listOf now uuid input) ∧
    (asLists (s1 !! SHOPPING_LISTS) ≫= Obj.get listId)
      = Some (listOf now uuid input)).
  { intros plan. rewrite saveMealPlan_unfold. cbn [snd].
    rewrite !lookup_insert_ne by discriminate.
    unfold s1. rewrite lookup_insert_eq. simpl.
    split; apply Obj_get_assign. }
  split; [|split].
  - destruct (truthyString _); [|apply (Hlists unnamedPlan)].
    destruct (asPlan (s !! MEAL_PLAN_ACTIVE)) as [latest|];
      [|apply (Hlists unnamedPlan)].
    case_bool_decide; [apply Hlists | apply (Hlists unnamedPlan)].
  - intros planId latest Hid Hne Hact <-. rewrite Hid, Hact.
    unfold truthyString.
    destruct (String.eqb_spec (mp_id latest) EmptyString) as [|_]; [done|].
    cbn [negb]. rewrite bool_decide_true by done.
    rewrite saveMealPlan_unfold. cbn [snd].
    rewrite lookup_insert_ne by discriminate.
    rewrite lookup_insert_eq. reflexivity.
  - intros Hother.
    assert (Hs1 : s1 !! MEAL_PLAN_ACTIVE = s !! MEAL_PLAN_ACTIVE ∧
                  s1 !! MEAL_PLAN_HISTORY = s !! MEAL_PLAN_HISTORY).
    { unfold s1. rewrite !lookup_insert_ne by discriminate. done. }
    destruct (truthyString _); [|exact Hs1].
    destruct (asPlan (s !! MEAL_PLAN_ACTIVE)) as [latest|] eqn:Hact;
      [|exact Hs1].
    rewrite bool_decide_false by (apply Hother; reflexivity). exact Hs1.
Qed.

(** The theorem at work: a list for the active plan ["plan-1"], and a
    list for another plan. *)
Lemma shopping_list_backlink_witness :
  let active :=
    {| mp_id := "plan-1"; mp_createdAt := 1; mp_timeframe := daily;
       mp_days := []; mp_shoppingListId := None |} in
  let s : Store := {[ MEAL_PLAN_ACTIVE := VPlan active ]} in
  let input planId :=
    {| in_listId := Some "list-1"; in_listPlanId := Some planId;
       in_listTimeframe := daily; in_items := [] |} in
  (tool_saveShoppingList true 5 None (input "plan-1") s).2 !! MEAL_PLAN_ACTIVE
    = Some (VPlan (withShoppingList active "list-1")) ∧
  (tool_saveShoppingList true 5 None (input "plan-2") s).2 !! MEAL_PLAN_ACTIVE
    = s !! MEAL_PLAN_ACTIVE.
Proof.
  intros active s input. split.
  - apply (proj1 (proj2 (shopping_list_backlink s 5 None (input "plan-1")))
             "plan-1" active); [reflexivity | discriminate | reflexivity | reflexivity].
  - apply (proj2 (proj2 (shopping_list_backlink s 5 None (input "plan-2")))).
    intros latest Hlatest. subst s. rewrite lookup_singleton_eq in Hlatest.
    injection Hlatest as <-. discriminate.
Defined.

(** C10 as first stated fails on an empty [planId]: the active plan has
    the empty identifier, the tool is invoked with that very [planId], and
    the plan's [shoppingListId] is not set. *)
Lemma shopping_list_backlink_counterexample :
  let s : Store := {[ MEAL_PLAN_ACTIVE := VPlan unnamedPlan ]} in
  let s' := (tool_saveShoppingList true 5 None listForUnnamedPlan s).2 in
  in_listPlanId listForUnnamedPlan = Some (mp_id unnamedPlan) ∧
  asPlan (s !! MEAL_PLAN_ACTIVE) = Some unnamedPlan ∧
  (asPlan (s' !! MEAL_PLAN_ACTIVE) ≫= mp_shoppingListId) = None ∧
  (asPlan (s' !! MEAL_PLAN_ACTIVE) ≫= mp_shoppingListId)
    ≠ Some (listIdOf 5 None listForUnnamedPlan).
Proof. vm_compute. repeat split; discriminate. Qed.

(** ** Profile updates *)

(** What the [updateProfile] tool stores: every field but [macroTargets]
    takes the supplied value or keeps the stored one, and the update time
    is stamped; [macroTargets] is replaced as a whole, its missing
    sub-fields by 0, and is overwritten by [undefined] when the update has
    none. *)
Lemma tool_updateProfile_stored now input (s : Store) :
  let existing := asProfile (s !! PROFILE) ?? emptyProfile in
  ∃ p message,
    tool_updateProfile true now input s
      = (Returned message, <[PROFILE := VProfile p]> s) ∧
    read (up_name p) = merged (up_name existing) (in_name input) ∧
    read (up_goalType p) = merged (up_goalType existing) (in_goalType input) ∧
    read (up_weight p) = merged (up_weight existing) (in_weight input) ∧
    read (up_targetWeight p)
      = merged (up_targetWeight existing) (in_targetWeight input) ∧
    read (up_heightInches p)
      = merged (up_heightInches existing) (in_heightInches input) ∧
    read (up_age p) = merged (up_age existing) (in_age input) ∧
    read (up_sex p) = merged (up_sex existing) (in_sex input) ∧
    read (up_activityLevel p)
      = merged (up_activityLevel existing) (in_activityLevel input) ∧
    read (up_restrictions p)
      = merged (up_restrictions existing) (in_restrictions input) ∧
    read (up_preferences p)
      = merged (up_preferences existing) (in_preferences input) ∧
    read (up_timezone p) = merged (up_timezone existing) (in_timezone input) ∧
    read (up_id p) = read (up_id existing) ∧
    up_updatedAt p = Defined now ∧
    read (up_macroTargets p) =
      match in_macroTargets input with
      | Some m =>
          Some {| protein := in_targetProtein m ?? 0;
                  carbs := in_targetCarbs m ?? 0;
                  fat := in_targetFat m ?? 0;
                  calories := in_targetCalories m ?? 0 |}
      | None => None
      end.
Proof.
  intros existing. unfold tool_updateProfile, setProfile, getProfile. run.
  fold existing. eexists _, _. split; [reflexivity|]. simpl.
  destruct input; simpl.
  repeat split;
    repeat match goal with
    | |- context [own ?o] => destruct o; simpl
    end; try reflexivity.
  all: destruct in_macroTargets0; reflexivity.
Qed.

(** C7 (the code departs from the claim). On the stored profile with
    macro targets 150 / 200 / 60 / 2000, the update
    [{ macroTargets: { protein: 180 } }] stores the targets
    180 / 0 / 0 / 0: the three sub-fields it did not name are zeroed, not
    kept. And the update [{ weight: 175 }], which names no macro targets,
    leaves the stored profile without macro targets. *)
Theorem profile_update_macro_targets :
  let s : Store := {[ PROFILE := VProfile storedProfile ]} in
  let targets (s' : Store) :=
    asProfile (s' !! PROFILE) ≫= (λ p, read (up_macroTargets p)) in
  targets s
    = Some {| protein := 150; carbs := 200; fat := 60; calories := 2000 |} ∧
  targets (tool_updateProfile true 9 proteinOnly s).2
    = Some {| protein := 180; carbs := 0; fat := 0; calories := 0 |} ∧
  targets (tool_updateProfile true 9 weightOnly s).2 = None.
Proof. vm_compute. repeat split. Qed.

(** ** Reading progress *)

Lemma readOnly_ret {A} (a : A) : readOnly (mret a).
Proof. intros s. reflexivity. Qed.

Lemma readOnly_throw {A} e : readOnly (@throw A e).
Proof. intros s. reflexivity. Qed.

Lemma readOnly_storageGet key : readOnly (storageGet key).
Proof. intros s. reflexivity. Qed.

Lemma readOnly_bind {A B} (m : Agent A) (f : A → Agent B) :
  readOnly m → (∀ a, readOnly (f a)) → readOnly (m ≫= f).
Proof.
  intros Hm Hf s. unfold mbind, Agent_bind.
  specialize (Hm s). destruct (m s) as [[a|e] s']; simpl in *; subst.
  - apply Hf.
  - reflexivity.
Qed.

Lemma readOnly_fmap {A B} (f : A → B) (m : Agent A) :
  readOnly m → readOnly (f <$> m).
Proof.
  intros Hm s. unfold fmap, Agent_fmap.
  specialize (Hm s). destruct (m s) as [[a|e] s']; simpl in *; subst; reflexivity.
Qed.

Lemma readOnly_mapAll {A B} (f : A → Agent B) l :
  (∀ a, readOnly (f a)) → readOnly (mapAll f l).
Proof.
  intros Hf. induction l as [|x l IH]; simpl.
  - apply readOnly_ret.
  - apply readOnly_bind; [apply Hf|]. intros y.
    apply readOnly_bind; [apply IH|]. intros ys. apply readOnly_ret.
Qed.

Create HintDb readonly.
#[local] Hint Resolve readOnly_ret readOnly_throw readOnly_storageGet
  readOnly_fmap readOnly_mapAll : readonly.

Lemma readOnly_toDateString date : readOnly (toDateString date).
Proof. unfold toDateString. destruct (ISODate.datePart date); auto with readonly. Qed.

Lemma readOnly_readDaily date : readOnly (readDaily date).
Proof. unfold readDaily. auto with readonly. Qed.

Lemma readOnly_getProfile : readOnly getProfile.
Proof. unfold getProfile. auto with readonly. Qed.

#[local] Hint Resolve readOnly_toDateString readOnly_readDaily
  readOnly_getProfile : readonly.

Lemma readOnly_getDailyMacros now date : readOnly (getDailyMacros now date).
Proof.
  unfold getDailyMacros.
  apply readOnly_bind; [destruct date; auto with readonly|]. intros d.
  apply readOnly_bind; [auto with readonly|]. intros [e|]; auto with readonly.
Qed.

Lemma readOnly_getMealHistory lc limit : readOnly (getMealHistory lc limit).
Proof.
  unfold getMealHistory.
  apply readOnly_bind; [auto with readonly|]. intros stored.
  destruct (asDates stored ?? []); [auto with readonly|].
  apply readOnly_bind; auto with readonly.
Qed.

Lemma readOnly_tool_getProgress lc agent now raw :
  readOnly (tool_getProgress lc agent now raw).
Proof.
  unfold tool_getProgress.
  destruct (parseDays raw); [|auto with readonly].
  destruct agent; simpl; [|auto with readonly].
  apply readOnly_bind; [auto with readonly|]. intros profile.
  apply readOnly_bind; [apply readOnly_getDailyMacros|]. intros today.
  apply readOnly_bind; [apply readOnly_getMealHistory|]. intros history.
  auto with readonly.
Qed.

Lemma toDateString_valid t (s : Store) :
  validTime t → ∃ date, toDateString t s = (Returned date, s).
Proof.
  intros Ht. unfold toDateString, ISODate.datePart, validTime in *.
  replace ((- ISODate.maxTime <=? t) && (t <=? ISODate.maxTime)) with true
    by (symmetry; apply andb_true_iff; lia).
  destruct (ISODate.civil _) as [[y m] d]. eexists; reflexivity.
Qed.

Lemma readDaily_run date (s : Store) :
  readDaily date s = (Returned (asDaily (s !! getDailyKey date)), s).
Proof. reflexivity. Qed.

Lemma mapAll_readDaily dates (s : Store) :
  mapAll readDaily dates s
    = (Returned ((λ date, asDaily (s !! getDailyKey date)) <$> dates), s).
Proof.
  induction dates as [|d dates IH]; [reflexivity|].
  cbn [mapAll]. unfold mbind, Agent_bind. rewrite readDaily_run, IH. reflexivity.
Qed.

Lemma getMealHistory_returns lc limit (s : Store) :
  ∃ history, getMealHistory lc limit s = (Returned history, s).
Proof.
  unfold getMealHistory. run.
  destruct (asDates (s !! MEAL_DATES) ?? []) as [|d ds]; [eexists; reflexivity|].
  unfold mbind, Agent_bind. rewrite mapAll_readDaily. eexists; reflexivity.
Qed.

Lemma getDailyMacros_returns now (s : Store) :
  validTime now → ∃ today, getDailyMacros now None s = (Returned today, s).
Proof.
  intros Hnow. destruct (toDateString_valid now s Hnow) as [date Hdate].
  unfold getDailyMacros, mbind, Agent_bind. rewrite Hdate.
  unfold readDaily. run.
  destruct (asDaily (s !! getDailyKey date)); eexists; reflexivity.
Qed.

(** C3. Read-only guarantee. For every store, [getProgress] leaves the
    store equal to what it was, whatever the call does (summary, missing
    agent context or rejected input); and for every valid [days] argument
    (an integer from 1 to 30, or none for the default of 3) it does
    return a summary. *)
Theorem getProgress_read_only lc (s : Store) (now : Z) (raw : option Z) :
  (∀ agent, (tool_getProgress lc agent now raw s).2 = s) ∧
  (validDays raw → validTime now →
   ∃ summary, tool_getProgress lc true now raw s = (Returned summary, s)).
Proof.
  split; [intros agent; apply readOnly_tool_getProgress|].
  intros Hdays Hnow. unfold tool_getProgress.
  assert (∃ days, parseDays raw = Some days) as [days ->].
  { destruct raw as [d|]; simpl in *; [|eauto].
    replace ((1 <=? d) && (d <=? 30)) with true
      by (symmetry; apply andb_true_iff; lia).
    eauto. }
  cbn [negb]. unfold getProfile. run.
  destruct (getDailyMacros_returns now s Hnow) as [today ->].
  destruct (getMealHistory_returns lc (Some days) s) as [history ->].
  eexists; reflexivity.
Qed.

(** The theorem at work: seven days of history asked of a store that
    holds a profile. *)
Lemma getProgress_read_only_witness :
  let lc (a b : string) := 0 in
  let s : Store := {[ PROFILE := VProfile storedProfile ]} in
  ∃ summary,
    tool_getProgress lc true 1760398200000 (Some 7) s = (Returned summary, s).
Proof.
  intros lc s.
  apply (proj2 (getProgress_read_only lc s 1760398200000 (Some 7))).
  - simpl. lia.
  - unfold validTime, ISODate.maxTime. lia.
Defined.

(** ** Fallback on a generation failure *)

Lemma append_cons a s t : String a s +:+ t = String a (s +:+ t).
Proof. reflexivity. Qed.

Lemma append_nil t : EmptyString +:+ t = t.
Proof. reflexivity. Qed.

Lemma startsWith_spec pre : ∀ s,
  JS.startsWith pre s = true ↔ ∃ post, s = pre +:+ post.
Proof.
  induction pre as [|a pre IH]; intros s; simpl.
  - split; [eauto|done].
  - destruct s as [|b s].
    + split; [done|]. intros [post H]. discriminate.
    + destruct (Ascii.eqb_spec a b) as [->|Hne].
      * rewrite IH. split; intros [post H]; exists post;
          rewrite append_cons in *; congruence.
      * split; [done|]. intros [post H]. rewrite append_cons in H. congruence.
Qed.

Lemma includes_spec sub : ∀ s, JS.includes s sub = true ↔ contains s sub.
Proof.
  induction s as [|a s IH]; simpl.
  - rewrite orb_false_r, startsWith_spec. split.
    + intros [post H]. exists EmptyString, post. exact H.
    + intros (pre & post & H). destruct pre; [|discriminate].
      exists post. exact H.
  - rewrite orb_true_iff, startsWith_spec, IH. split.
    + intros [[post H] | (pre & post & H)].
      * exists EmptyString, post. exact H.
      * exists (String a pre), post. rewrite append_cons. congruence.
    + intros (pre & post & H). destruct pre as [|b pre].
      * left. eauto.
      * right. exists pre, post. rewrite append_cons in H. congruence.
Qed.



(** ** The workflow trigger endpoint *)

Lemma hasKey_member key members :
  hasKey key (JObject members) = true ↔ is_Some (member key members).
Proof.
  simpl. induction members as [|[k v] rest IH]; simpl.
  - split; [done|]. intros [? ?]. discriminate.
  - destruct (String.eqb k key); simpl; [split; eauto|exact IH].
Qed.

Lemma taggedObject_gate body :
  taggedObject body ↔
  falsy body || negb (isObject body) || negb (hasKey "type" body) = false.
Proof.
  split.
  - intros (members & -> & Htype). apply hasKey_member in Htype.
    cbn [falsy isObject negb orb]. rewrite Htype. reflexivity.
  - intros Hgate. destruct body as [|b|n|t|items|members]; simpl in Hgate;
      try discriminate.
    + destruct b; discriminate.
    + destruct (n =? 0); discriminate.
    + destruct (String.eqb t EmptyString); discriminate.
    + exists members. split; [reflexivity|]. apply hasKey_member. simpl.
      destruct (existsb _ members); [reflexivity|discriminate].
Qed.

Lemma wellFormed_tagged body : wellFormedPayload body → taggedObject body.
Proof. intros (members & tag & -> & Htype & _). exists members. split; eauto. Qed.

(** C9, as amended. The workflow trigger endpoint rejects with status
    400, and forwards nothing, when the body does not parse or is not a
    JSON object with a [type] member. Every JSON object with a [type]
    member, whatever the tag, is forwarded to the job scheduler, once and
    unchanged; when the scheduler accepts it the response is 202 with the
    job identifier and the status "queued", and when the scheduler throws
    it is 400. In particular a payload whose [type] is one of the three
    known tags is forwarded and, once accepted, answered with 202 and the
    job identifier. *)
Theorem workflow_trigger_gate (create : JSON → Outcome string) :
  fetch create (triggerRequest None) = Workflow triggerFailed [] ∧
  (∀ body, ¬ taggedObject body →
      fetch create (triggerRequest (Some body)) = Workflow invalidPayload []) ∧
  (∀ body, taggedObject body →
      (∀ id, create body = Returned id →
         fetch create (triggerRequest (Some body)) = Workflow (queued id) [body]) ∧
      (∀ e, create body = Thrown e →
         fetch create (triggerRequest (Some body)) = Workflow triggerFailed [body])) ∧
  (∀ body id, wellFormedPayload body → create body = Returned id →
      fetch create (triggerRequest (Some body)) = Workflow (queued id) [body]).
Proof.
  assert (Htagged : ∀ body, taggedObject body →
    (∀ id, create body = Returned id →
       fetch create (triggerRequest (Some body)) = Workflow (queued id) [body]) ∧
    (∀ e, create body = Thrown e →
       fetch create (triggerRequest (Some body)) = Workflow triggerFailed [body])).
  { intros body Hbody. apply taggedObject_gate in Hbody.
    unfold fetch, triggerRequest, triggerWorkflow. cbn [method pathname json isMethod].
    rewrite Hbody. split; intros ? ->; reflexivity. }
  split; [reflexivity|]. split; [|split].
  - intros body Hbody.
    unfold fetch, triggerRequest, triggerWorkflow. cbn [method pathname json isMethod].
    destruct (falsy body || negb (isObject body) || negb (hasKey "type" body))
      eqn:Hgate; [reflexivity|].
    apply taggedObject_gate in Hgate. contradiction.
  - exact Htagged.
  - intros body id Hwf. apply (Htagged body (wellFormed_tagged body Hwf)).
Qed.

(** The theorem at work: the payload of the repository's own test is
    queued, and a body without a [type] is rejected. *)
Lemma workflow_trigger_gate_witness :
  let create (_ : JSON) : Outcome string := Returned "wf_test" in
  let payload :=
    JObject [("type", JString "daily_macro_check");
             ("userId", JString "user_demo");
             ("profileSnapshot", JNull);
             ("date", JString "2025-10-13")] in
  fetch create (triggerRequest (Some payload))
    = Workflow (queued "wf_test") [payload] ∧
  fetch create (triggerRequest (Some (JObject [("userId", JString "user_demo")])))
    = Workflow invalidPayload [].
Proof.
  intros create payload.
  destruct (workflow_trigger_gate create) as (_ & Hreject & _ & Hqueue). split.
  - apply Hqueue; [|reflexivity].
    exists [("type", JString "daily_macro_check");
            ("userId", JString "user_demo");
            ("profileSnapshot", JNull);
            ("date", JString "2025-10-13")], "daily_macro_check".
    split; [reflexivity|]. split; [reflexivity|]. right. left. reflexivity.
  - apply Hreject. intros (members & Heq & Htype).
    injection Heq as <-. destruct Htype as [v Hv]. discriminate.
Defined.

(** C9 as first stated fails on an unknown tag: a payload whose [type]
    is none of the three known tags is forwarded to the scheduler and
    answered with 202. *)
Lemma workflow_trigger_gate_counterexample :
  let create (_ : JSON) : Outcome string := Returned "wf_1" in
  let payload := JObject [("type", JString "bogus")] in
  ¬ knownTag "bogus" ∧ ¬ wellFormedPayload payload ∧
  fetch create (triggerRequest (Some payload)) = Workflow (queued "wf_1") [payload].
Proof.
  intros create payload. split; [|split].
  - intros [H | [H | H]]; discriminate.
  - intros (members & tag & Heq & Htype & Htag).
    injection Heq as <-. injection Htype as <-.
    destruct Htag as [H | [H | H]]; discriminate.
  - reflexivity.
Qed.

(** ** Sorting *)

Section Sorting.

Context {A : Type} (cmp : A → A → Z).

Lemma insert_Permutation x l : JS.insert cmp x l ≡ₚ x :: l.
Proof.
  induction l as [|y l IH]; simpl; [reflexivity|].
  destruct (0 <? cmp x y); [|reflexivity].
  rewrite IH. apply Permutation_swap.
Qed.

Lemma sort_Permutation l : JS.sort cmp l ≡ₚ l.
Proof.
  induction l as [|x l IH]; simpl; [reflexivity|].
  rewrite insert_Permutation, IH. reflexivity.
Qed.

Lemma sort_sorted_id l : StronglySorted (inOrder cmp) l → JS.sort cmp l = l.
Proof.
  induction 1 as [|x l Hl IH Hx]; simpl; [reflexivity|].
  rewrite IH. destruct l as [|y l]; [reflexivity|]. simpl.
  apply Forall_cons in Hx as [Hxy _]. unfold inOrder in Hxy.
  replace (0 <? cmp x y) with false by lia. reflexivity.
Qed.

(** The comparator is consistent on the elements that satisfy [P]. *)
Variable P : A → Prop.
Hypothesis cmp_flip : ∀ a b, P a → P b → 0 < cmp a b → cmp b a ≤ 0.
Hypothesis cmp_trans : ∀ a b c, P a → P b → P c →
  cmp a b ≤ 0 → cmp b c ≤ 0 → cmp a c ≤ 0.

Lemma insert_sorted x l :
  P x → Forall P l → StronglySorted (inOrder cmp) l →
  StronglySorted (inOrder cmp) (JS.insert cmp x l).
Proof.
  intros Px. induction l as [|y l IH]; intros HP Hl; simpl.
  - repeat constructor.
  - apply Forall_cons in HP as [Py HP].
    apply StronglySorted_cons in Hl as [Hy Hl].
    destruct (0 <? cmp x y) eqn:Hxy.
    + apply StronglySorted_cons. split; [|apply IH; assumption].
      rewrite insert_Permutation. constructor; [|exact Hy].
      unfold inOrder. apply cmp_flip; [assumption..|lia].
    + apply StronglySorted_cons. split;
        [|apply StronglySorted_cons; split; assumption].
      assert (inOrder cmp x y) by (unfold inOrder; lia).
      constructor; [assumption|].
      rewrite Forall_forall in *. intros z Hz.
      apply (cmp_trans x y z); auto. apply (Hy z Hz).
Qed.

Lemma sort_sorted l : Forall P l → StronglySorted (inOrder cmp) (JS.sort cmp l).
Proof.
  induction l as [|x l IH]; intros HP; simpl; [constructor|].
  apply Forall_cons in HP as [Px HP].
  apply insert_sorted; auto.
  rewrite sort_Permutation. exact HP.
Qed.

End Sorting.

(** ** Logging a meal *)

Lemma dateOf_length t date : dateOf t = Some date → String.length date = 10%nat.
Proof.
  unfold dateOf, ISODate.datePart.
  destruct ((- ISODate.maxTime <=? t) && (t <=? ISODate.maxTime)); [|discriminate].
  destruct (ISODate.civil (t / ISODate.msPerDay)) as [[y m] d].
  unfold ISODate.year.
  destruct ((0 <=? y) && (y <=? 9999)); [|destruct (y <? 0)];
    intros [= <-]; reflexivity.
Qed.

Lemma getDailyKey_inj d1 d2 : getDailyKey d1 = getDailyKey d2 → d1 = d2.
Proof. unfold getDailyKey. apply String.app_inj. Qed.

Lemma getDailyKey_dates t date : dateOf t = Some date → getDailyKey date ≠ MEAL_DATES.
Proof.
  intros Hdate Hkey. apply dateOf_length in Hdate.
  change MEAL_DATES with (getDailyKey "dates") in Hkey.
  apply getDailyKey_inj in Hkey. subst date. discriminate.
Qed.

Lemma toDateString_dateOf t date (s : Store) :
  dateOf t = Some date → toDateString t s = (Returned date, s).
Proof.
  unfold dateOf, toDateString.
  destruct (ISODate.datePart t); intros [= <-]. reflexivity.
Qed.

(** What one [logMeal] returns and stores, for a representable time. *)
Lemma logMeal_run lc now uuid meal (s : Store) date :
  dateOf (arg_timestamp meal ?? now) = Some date →
  let meals :=
    JS.sort (λ a b, ml_timestamp a - ml_timestamp b)
      (mealsOn s date ++ [loggedMeal now uuid meal]) in
  let updated :=
    {| dm_date := date; dm_meals := meals; dm_totals := computeTotals meals |} in
  logMeal lc now uuid meal s =
    (Returned updated,
     <[MEAL_DATES := VDates (nextDates lc date (datesOf s))]>
       (<[getDailyKey date := VDaily updated]> s)).
Proof.
  intros Hdate meals updated.
  unfold logMeal, mbind, Agent_bind.
  rewrite (toDateString_dateOf _ _ _ Hdate).
  rewrite readDaily_run.
  unfold writeDaily, updateMealDates, storagePut, storageGet, mbind, Agent_bind,
    mret, Agent_ret.
  cbn [dm_date].
  rewrite lookup_insert_ne by (apply (getDailyKey_dates _ _ Hdate)).
  reflexivity.
Qed.

Lemma sumOf_Permutation field l1 l2 : l1 ≡ₚ l2 → sumOf field l1 = sumOf field l2.
Proof.
  unfold sumOf. induction 1; simpl; lia.
Qed.

Lemma totalOf_Permutation l1 l2 : l1 ≡ₚ l2 → totalOf l1 = totalOf l2.
Proof.
  intros H. unfold totalOf.
  rewrite !(sumOf_Permutation _ l1 l2 H). reflexivity.
Qed.

Lemma foldl_addMeal meals : ∀ acc,
  foldl addMeal acc meals =
    {| protein := protein acc + sumOf ml_protein meals;
       carbs := carbs acc + sumOf ml_carbs meals;
       fat := fat acc + sumOf ml_fat meals;
       calories := calories acc + sumOf ml_calories meals |}.
Proof.
  induction meals as [|m meals IH]; intros [p c f k]; simpl.
  - f_equal; lia.
  - rewrite IH. simpl. f_equal; lia.
Qed.

Lemma computeTotals_totalOf meals : computeTotals meals = totalOf meals.
Proof. unfold computeTotals. rewrite foldl_addMeal. reflexivity. Qed.

Lemma logMeal_stored lc now uuid meal (s : Store) date :
  dateOf (arg_timestamp meal ?? now) = Some date →
  ∃ day,
    (logMeal lc now uuid meal s).1 = Returned day ∧
    (logMeal lc now uuid meal s).2 !! getDailyKey date = Some (VDaily day) ∧
    dm_date day = date ∧
    dm_meals day ≡ₚ mealsOn s date ++ [loggedMeal now uuid meal] ∧
    dm_totals day = computeTotals (dm_meals day).
Proof.
  intros Hdate. rewrite (logMeal_run lc now uuid meal s date Hdate).
  eexists. split; [reflexivity|]. cbn [snd]. split; [|split; [|split]].
  - rewrite lookup_insert_ne
      by (intros H; symmetry in H; revert H; apply (getDailyKey_dates _ _ Hdate)).
    apply lookup_insert_eq.
  - reflexivity.
  - cbn [dm_meals]. apply sort_Permutation.
  - reflexivity.
Qed.

(** C8, as amended. [logMeal] files a meal under the UTC calendar date of
    the meal's timestamp, the first ten characters of its ISO rendering,
    for every store and so for every session timezone: it returns the day
    of that date, stores it under the key of that date with the meal
    among its meals, and touches no other day. *)
Theorem meal_filed_under_utc_date lc (s : Store) now uuid meal date :
  dateOf (arg_timestamp meal ?? now) = Some date →
  let s' := (logMeal lc now uuid meal s).2 in
  ∃ day,
    (logMeal lc now uuid meal s).1 = Returned day ∧
    dm_date day = date ∧
    localeDateString 0 (ml_timestamp (loggedMeal now uuid meal)) = Some date ∧
    s' !! getDailyKey date = Some (VDaily day) ∧
    loggedMeal now uuid meal ∈ dm_meals day ∧
    (∀ key, key ≠ getDailyKey date → key ≠ MEAL_DATES → s' !! key = s !! key).
Proof.
  intros Hdate s'.
  destruct (logMeal_stored lc now uuid meal s date Hdate)
    as (day & Hret & Hkey & Hday & Hmeals & _).
  exists day. repeat split; try assumption.
  - unfold localeDateString. cbn [ml_timestamp loggedMeal].
    rewrite Z.mul_0_l, Z.add_0_r. exact Hdate.
  - rewrite Hmeals. set_solver.
  - intros key Hne Hdates. subst s'.
    rewrite (logMeal_run lc now uuid meal s date Hdate). cbn [snd].
    rewrite !lookup_insert_ne by done. reflexivity.
Qed.

(** The theorem at work: the late snack of the Berlin session is filed
    under 2025-10-13. *)
Lemma meal_filed_under_utc_date_witness :
  let lc (a b : string) := 0 in
  ∃ day,
    (logMeal lc (call_now lateSnack) (call_uuid lateSnack) (call_meal lateSnack)
       berlinSession).2 !! getDailyKey "2025-10-13" = Some (VDaily day) ∧
    callMeal lateSnack ∈ dm_meals day.
Proof.
  intros lc.
  destruct (meal_filed_under_utc_date lc berlinSession (call_now lateSnack)
              (call_uuid lateSnack) (call_meal lateSnack) "2025-10-13" eq_refl)
    as (day & _ & _ & _ & Hkey & Hmeal & _).
  exists day. split; assumption.
Defined.

(** C8 as first stated fails for a session ahead of UTC: the late snack
    falls on 2025-10-14 in the Berlin session's locale, and it is filed
    under 2025-10-13; no day is stored for 2025-10-14. *)
Lemma meal_filed_under_locale_date_counterexample :
  let lc (a b : string) := 0 in
  let s' :=
    (logMeal lc (call_now lateSnack) (call_uuid lateSnack) (call_meal lateSnack)
       berlinSession).2 in
  localeDateString 120 (callTime lateSnack) = Some "2025-10-14" ∧
  s' !! getDailyKey "2025-10-14" = None ∧
  mealsOn s' "2025-10-13" = [callMeal lateSnack].
Proof. vm_compute. repeat split. Qed.

(** ** The totals invariant *)

Lemma logAll_run lc date calls : ∀ s : Store,
  Forall (λ c, dateOf (callTime c) = Some date) calls →
  ∃ days s',
    logAll lc calls s = (Returned days, s') ∧
    mealsOn s' date ≡ₚ mealsOn s date ++ (callMeal <$> calls) ∧
    (calls ≠ [] → totalsOn s' date = Some (computeTotals (mealsOn s' date))).
Proof.
  induction calls as [|c calls IH]; intros s Hdates.
  - exists [], s. split; [reflexivity|]. split; [|done].
    rewrite app_nil_r. reflexivity.
  - apply Forall_cons in Hdates as [Hc Hdates].
    destruct (logMeal_stored lc (call_now c) (call_uuid c) (call_meal c) s date Hc)
      as (day & Hret & Hkey & Hday & Hmeals & Htotals).
    destruct (logMeal lc (call_now c) (call_uuid c) (call_meal c) s)
      as [o s1] eqn:Hrun. cbn [fst snd] in *. subst o.
    destruct (IH s1 Hdates) as (days & s' & Hall & Hperm & Hinv).
    exists (day :: days), s'. split; [|split].
    + unfold logAll in *. cbn [mapAll]. unfold mbind, Agent_bind.
      rewrite Hrun, Hall. reflexivity.
    + rewrite Hperm. unfold mealsOn at 1. rewrite Hkey. cbn [asDaily].
      rewrite Hmeals, <- app_assoc. reflexivity.
    + intros _. destruct calls as [|c' calls]; [|apply Hinv; discriminate].
      unfold logAll in Hall. cbn in Hall. injection Hall as <- <-.
      unfold totalsOn, mealsOn. rewrite Hkey. simpl. rewrite Htotals. reflexivity.
Qed.



(** ** The dates index *)

Lemma nextDates_take lc date dates :
  nextDates lc date dates =
    take 30 (JS.sort (descending lc)
               (if bool_decide (date ∈ dates) then dates else dates ++ [date])).
Proof. reflexivity. Qed.

Lemma updateMealDates_run lc date (s : Store) :
  updateMealDates lc date s =
    (Returned tt, <[MEAL_DATES := VDates (nextDates lc date (datesOf s))]> s).
Proof. reflexivity. Qed.

Lemma logAll_dates lc calls : ∀ dates (s : Store),
  callDates calls dates →
  ∃ days s',
    logAll lc calls s = (Returned days, s') ∧
    datesOf s' = foldl (λ index d, nextDates lc d index) (datesOf s) dates ∧
    (calls ≠ [] → s' !! MEAL_DATES = Some (VDates (datesOf s'))).
Proof.
  induction calls as [|c calls IH]; intros dates s Hdates.
  - apply Forall2_nil_inv_l in Hdates as ->. exists [], s. done.
  - apply Forall2_cons_inv_l in Hdates as (d & dates' & Hd & Hdates & ->).
    pose proof (logMeal_run lc (call_now c) (call_uuid c) (call_meal c) s d Hd)
      as Hrun. cbv zeta in Hrun.
    set (s1 := <[MEAL_DATES := _]> _) in Hrun.
    assert (Hs1 : s1 !! MEAL_DATES = Some (VDates (nextDates lc d (datesOf s))))
      by (unfold s1; apply lookup_insert_eq).
    assert (Hd1 : datesOf s1 = nextDates lc d (datesOf s))
      by (unfold datesOf at 1; rewrite Hs1; reflexivity).
    destruct (IH dates' s1 Hdates) as (days & s' & Hall & Hidx & Hkey).
    eexists (_ :: days), s'. split; [|split].
    + unfold logAll in *. cbn [mapAll]. unfold mbind, Agent_bind.
      rewrite Hrun, Hall. reflexivity.
    + cbn [foldl]. rewrite <- Hd1. exact Hidx.
    + intros _. destruct calls as [|c' calls]; [|apply Hkey; discriminate].
      unfold logAll in Hall. cbn in Hall. injection Hall as _ <-.
      exact (eq_trans Hs1 (f_equal (λ x, Some (VDates x)) (eq_sym Hd1))).
Qed.

Section DatesIndex.

Variable lc : string → string → Z.

(** The dates that are logged, on which [localeCompare] is a strict
    total order. *)
Variable known : string → Prop.
Hypothesis lc_flip : ∀ a b, known a → known b → (lc a b < 0 ↔ 0 < lc b a).
Hypothesis lc_trans : ∀ a b c, known a → known b → known c →
  lc a b ≤ 0 → lc b c ≤ 0 → lc a c ≤ 0.
Hypothesis lc_eq : ∀ a b, known a → known b → lc a b = 0 → a = b.

Lemma descending_sorted l :
  Forall known l → StronglySorted (inOrder (descending lc)) (JS.sort (descending lc) l).
Proof.
  apply (sort_sorted (descending lc) known); unfold descending.
  - intros a b Ha Hb H. apply lc_flip in H; [lia|assumption..].
  - intros a b c Ha Hb Hc H1 H2. apply (lc_trans c b a); assumption.
Qed.

Lemma indexOf_nil : indexOf lc [] [].
Proof.
  split; [constructor|]. split; [constructor|]. split; [simpl; lia|].
  split; intros ? H; inversion H.
Qed.

Lemma indexOf_step seen index d :
  Forall known seen → known d →
  indexOf lc seen index → indexOf lc (seen ++ [d]) (nextDates lc d index).
Proof.
  intros Hseen Hd (Hsorted & Hnodup & Hlen & Hsub & Hmiss).
  rewrite nextDates_take.
  set (l := if bool_decide (d ∈ index) then index else index ++ [d]).
  assert (Hl : ∀ x, x ∈ l ↔ x ∈ index ∨ x = d).
  { intros x. unfold l. case_bool_decide; set_solver. }
  assert (Hlnodup : NoDup l).
  { unfold l. case_bool_decide; [assumption|].
    apply NoDup_app. split; [assumption|]. split; [set_solver|].
    apply NoDup_singleton. }
  assert (Hknown : ∀ x, x ∈ l → known x).
  { intros x Hx. apply Hl in Hx as [Hx | ->]; [|assumption].
    rewrite Forall_forall in Hseen. auto. }
  assert (Hlen_l : (length index ≤ length l)%nat).
  { unfold l. case_bool_decide; [lia|]. rewrite length_app. lia. }
  set (sorted := JS.sort (descending lc) l).
  assert (Hperm : sorted ≡ₚ l) by apply sort_Permutation.
  assert (Hs : StronglySorted (inOrder (descending lc)) sorted).
  { apply descending_sorted. rewrite Forall_forall. exact Hknown. }
  assert (Hsplit : sorted = take 30 sorted ++ drop 30 sorted)
    by (symmetry; apply take_drop).
  assert (Hsn : NoDup (take 30 sorted ++ drop 30 sorted))
    by (rewrite <- Hsplit, Hperm; assumption).
  apply NoDup_app in Hsn as (Hn1 & Hdisj & Hn2).
  rewrite Hsplit in Hs.
  assert (Hin : ∀ x, x ∈ take 30 sorted → x ∈ l).
  { intros x Hx. rewrite <- Hperm. eapply subseteq_take, Hx. }
  assert (Hfull : (30 ≤ length sorted)%nat → length (take 30 sorted) = 30%nat).
  { intros H. rewrite length_take. lia. }
  split; [eapply StronglySorted_app_1_l, Hs|].
  split; [assumption|].
  split; [rewrite length_take; lia|].
  split.
  { intros x Hx. apply Hin, Hl in Hx. set_solver. }
  intros d' Hd' Hnot.
  destruct (decide (d' ∈ l)) as [Hd'l | Hd'l].
  - assert (Hdrop : d' ∈ drop 30 sorted).
    { rewrite <- Hperm, Hsplit in Hd'l. set_solver. }
    split.
    + apply Hfull. apply list_elem_of_lookup in Hdrop as [i Hi].
      apply lookup_lt_Some in Hi. rewrite length_drop in Hi. lia.
    + intros x Hx.
      apply (StronglySorted_app_1_elem_of _ _ _ x d' Hs Hx Hdrop).
  - assert (Hd'seen : (d' ∈ seen) ∧ (d' ∉ index) ∧ (d' ≠ d)).
    { rewrite Hl in Hd'l. set_solver. }
    destruct Hd'seen as (Hd's & Hd'i & Hd'd).
    destruct (Hmiss d' Hd's Hd'i) as [Hlen30 Holder].
    assert (Hlen_s : length sorted = length l) by (rewrite Hperm; reflexivity).
    split; [apply Hfull; lia|].
    intros x Hx. destruct (proj1 (Hl x) (Hin x Hx)) as [Hxi | ->]; [auto|].
    destruct (decide (d ∈ index)) as [|Hdi]; [auto|].
    assert (Hlen31 : length l = 31%nat).
    { unfold l. rewrite bool_decide_false by assumption.
      rewrite length_app. simpl. lia. }
    destruct (drop 30 sorted) as [|m rest] eqn:Hrest.
    { apply (f_equal length) in Hrest. rewrite length_drop in Hrest.
      simpl in Hrest. lia. }
    assert (Hm : m ∈ drop 30 sorted) by (rewrite Hrest; left).
    rewrite Hrest in *.
    assert (Hml : m ∈ l).
    { rewrite <- Hperm, Hsplit. set_solver. }
    assert (Hmd : m ≠ d).
    { intros ->. apply (Hdisj d Hx). left. }
    assert (Hmi : m ∈ index) by (apply Hl in Hml; tauto).
    assert (Hdm : lc m d ≤ 0).
    { apply (StronglySorted_app_1_elem_of _ _ _ d m Hs Hx). left. }
    rewrite Forall_forall in Hseen.
    apply (lc_trans d' m d); auto.
Qed.

Lemma indexOf_foldl dates : ∀ seen index,
  Forall known seen → Forall known dates →
  indexOf lc seen index →
  indexOf lc (seen ++ dates) (foldl (λ index d, nextDates lc d index) index dates).
Proof.
  induction dates as [|d dates IH]; intros seen index Hseen Hdates Hidx.
  - rewrite app_nil_r. exact Hidx.
  - apply Forall_cons in Hdates as [Hd Hdates]. cbn [foldl].
    replace (seen ++ d :: dates) with ((seen ++ [d]) ++ dates)
      by (rewrite <- app_assoc; reflexivity).
    apply IH; [|assumption|apply indexOf_step; assumption].
    apply Forall_app. split; [assumption|]. constructor; [assumption|constructor].
Qed.

Lemma indexOf_strict seen index :
  Forall known seen → indexOf lc seen index →
  StronglySorted (λ a b, 0 < lc a b) index ∧
  (∀ d x, d ∈ seen → d ∉ index → x ∈ index → 0 < lc x d).
Proof.
  intros Hseen (Hsorted & Hnodup & _ & Hsub & Hmiss).
  rewrite Forall_forall in Hseen.
  assert (Hstrict : ∀ a b, known a → known b → a ≠ b → lc b a ≤ 0 → 0 < lc a b).
  { intros a b Ha Hb Hab Hle. apply lc_flip; [assumption..|].
    destruct (decide (lc b a = 0)) as [H0|]; [|lia].
    apply lc_eq in H0; [congruence|assumption..]. }
  split.
  - clear Hmiss. induction Hsorted as [|x l Hl IH Hx]; [constructor|].
    apply NoDup_cons in Hnodup as [Hxl Hnodup].
    constructor; [apply IH; [assumption|set_solver]|].
    rewrite Forall_forall in *. intros y Hy.
    apply Hstrict; [apply Hseen, Hsub; left|apply Hseen, Hsub; right; assumption| |].
    + intros ->. contradiction.
    + apply (Hx y Hy).
  - intros d x Hd Hnot Hx. destruct (Hmiss d Hd Hnot) as [_ Holder].
    apply Hstrict; auto. intros ->. contradiction.
Qed.

End DatesIndex.


Lemma codeUnitCompare_le a b : codeUnitCompare a b ≤ 0 ↔ String.le a b.
Proof.
  unfold codeUnitCompare, String.le, String.leb.
  destruct (String.compare a b); simpl; split; intros; try done; lia.
Qed.

Lemma codeUnitCompare_flip a b : codeUnitCompare a b < 0 ↔ 0 < codeUnitCompare b a.
Proof.
  unfold codeUnitCompare. rewrite (String.compare_antisym a b).
  destruct (String.compare b a); simpl; lia.
Qed.

Lemma codeUnitCompare_trans a b c :
  codeUnitCompare a b ≤ 0 → codeUnitCompare b c ≤ 0 → codeUnitCompare a c ≤ 0.
Proof. rewrite !codeUnitCompare_le. apply transitivity. Qed.

Lemma codeUnitCompare_eq a b : codeUnitCompare a b = 0 → a = b.
Proof.
  unfold codeUnitCompare. destruct (String.compare a b) eqn:H; try discriminate.
  intros _. apply String.compare_eq_iff, H.
Qed.


(** * Further properties *)

(** ** Frames *)

Lemma writesOnly_readOnly {A} keys (m : Agent A) : readOnly m → writesOnly keys m.
Proof. intros Hm s key _. rewrite Hm. reflexivity. Qed.

Lemma writesOnly_bind {A B} keys (m : Agent A) (f : A → Agent B) :
  writesOnly keys m → (∀ a, writesOnly keys (f a)) → writesOnly keys (m ≫= f).
Proof.
  intros Hm Hf s key Hkey. unfold mbind, Agent_bind.
  specialize (Hm s key Hkey). destruct (m s) as [[a|e] s1]; simpl in *.
  - rewrite (Hf a s1 key Hkey). exact Hm.
  - exact Hm.
Qed.

Lemma writesOnly_storagePut keys key v :
  key ∈ keys → writesOnly keys (storagePut key v).
Proof.
  intros Hin s key' Hkey'. unfold storagePut. simpl.
  apply lookup_insert_ne. intros ->. contradiction.
Qed.

Lemma writesOnly_weaken {A} keys keys' (m : Agent A) :
  (∀ key, key ∈ keys → key ∈ keys') → writesOnly keys m → writesOnly keys' m.
Proof. intros Hsub Hm s key Hkey. apply Hm. intros Hin. apply Hkey, Hsub, Hin. Qed.

Lemma readOnly_getLatestMealPlan : readOnly getLatestMealPlan.
Proof. unfold getLatestMealPlan. auto with readonly. Qed.

Lemma readOnly_getShoppingList id : readOnly (getShoppingList id).
Proof.
  unfold getShoppingList. apply readOnly_bind; [auto with readonly|].
  intros stored. destruct id as [i|]; [case_bool_decide|]; auto with readonly.
Qed.

Lemma readOnly_getMealPlanHistory limit : readOnly (getMealPlanHistory limit).
Proof.
  unfold getMealPlanHistory. apply readOnly_bind; auto with readonly.
Qed.

Lemma writesOnly_bumpRateLimit now : writesOnly [RATE_LIMIT] (bumpRateLimit now).
Proof.
  intros s key Hkey. rewrite bumpRateLimit_unfold. cbv zeta.
  destruct (_ >=? _); cbn [snd]; apply lookup_insert_ne; set_solver.
Qed.

Lemma writesOnly_saveMealPlan plan :
  writesOnly [MEAL_PLAN_ACTIVE; MEAL_PLAN_HISTORY] (saveMealPlan plan).
Proof.
  intros s key Hkey. rewrite saveMealPlan_unfold. cbn [snd].
  rewrite !lookup_insert_ne by set_solver. reflexivity.
Qed.

Lemma writesOnly_saveShoppingList list :
  writesOnly [SHOPPING_LISTS] (saveShoppingList list).
Proof.
  intros s key Hkey. rewrite saveShoppingList_unfold. cbn [snd].
  rewrite lookup_insert_ne by set_solver. reflexivity.
Qed.

Lemma writesOnly_setProfile now profile : writesOnly [PROFILE] (setProfile now profile).
Proof.
  unfold setProfile. apply writesOnly_bind.
  - apply writesOnly_readOnly, readOnly_getProfile.
  - intros stored. apply writesOnly_bind.
    + apply writesOnly_storagePut. set_solver.
    + intros []. apply writesOnly_readOnly, readOnly_ret.
Qed.

(** ** The rate limiter, continued *)

(** X1. The rate limiter keeps its record within bounds. If the stored
    count (when there is a record) lies between 0 and the cap of 20, then
    [bumpRateLimit] returns and stores a record whose count again lies
    between 0 and 20 and whose window has not expired at the time of the
    call. An admitted call leaves a count of at least 1; a rejected call
    finds the count at the cap and leaves the whole store as it was. *)
Theorem rate_limit_record_bounds (s : Store) (now : Z) :
  (∀ r, rateOf s = Some r → 0 ≤ rl_count r ≤ RATE_LIMIT_MAX_REQUESTS) →
  ∃ admitted r',
    bumpRateLimit now s = (Returned admitted, <[RATE_LIMIT := VRate r']> s) ∧
    0 ≤ rl_count r' ≤ RATE_LIMIT_MAX_REQUESTS ∧
    now ≤ rl_reset r' ∧
    (admitted = true → 1 ≤ rl_count r') ∧
    (admitted = false →
       rl_count r' = RATE_LIMIT_MAX_REQUESTS ∧
       s !! RATE_LIMIT = Some (VRate r') ∧
       (bumpRateLimit now s).2 = s).
Proof.
  intros Hbound. rewrite bumpRateLimit_unfold. unfold rateOf in Hbound.
  unfold RATE_LIMIT_MAX_REQUESTS, RATE_LIMIT_WINDOW_MS in *.
  destruct (asRate (s !! RATE_LIMIT)) as [[c r]|] eqn:Hr; simpl.
  - assert (Hs : s !! RATE_LIMIT = Some (VRate {| rl_count := c; rl_reset := r |})).
    { destruct (s !! RATE_LIMIT) as [[]|]; simpl in Hr; congruence. }
    specialize (Hbound _ eq_refl). simpl in Hbound.
    destruct (now >? r) eqn:Hnow; simpl.
    + eexists true, _. split; [reflexivity|]. simpl.
      repeat split; try lia; discriminate.
    + destruct (c >=? 20) eqn:Hc.
      * eexists false, _. split; [reflexivity|]. simpl.
        assert (c = 20) as -> by lia.
        split; [lia|]. split; [lia|]. split; [discriminate|].
        intros _. split; [reflexivity|]. split; [exact Hs|].
        apply insert_id. exact Hs.
      * eexists true, _. split; [reflexivity|]. simpl.
        repeat split; try lia; discriminate.
  - replace (now >? now + 10 * 60 * 1000) with false by lia. simpl.
    eexists true, _. split; [reflexivity|]. simpl.
    repeat split; try lia; discriminate.
Qed.

(** The theorem at work: a record at the cap, inside its window. *)
Lemma rate_limit_record_bounds_witness :
  let s : Store :=
    {[ RATE_LIMIT := VRate {| rl_count := 20; rl_reset := 601000 |} ]} in
  ∃ admitted r',
    bumpRateLimit 5000 s = (Returned admitted, <[RATE_LIMIT := VRate r']> s) ∧
    0 ≤ rl_count r' ≤ RATE_LIMIT_MAX_REQUESTS.
Proof.
  intros s.
  destruct (rate_limit_record_bounds s 5000) as (admitted & r' & Hrun & Hb & _).
  - intros r Hr. unfold rateOf, s in Hr. rewrite lookup_singleton_eq in Hr.
    injection Hr as <-. simpl. unfold RATE_LIMIT_MAX_REQUESTS. lia.
  - exists admitted, r'. split; assumption.
Defined.

(** ** A chat turn *)

Lemma getShoppingList_returns id (s : Store) :
  ∃ list, getShoppingList id s = (Returned list, s).
Proof.
  unfold getShoppingList. run.
  destruct id as [i|]; [case_bool_decide|]; eexists; reflexivity.
Qed.

Lemma bumpRateLimit_returns now (s : Store) :
  ∃ admitted s', bumpRateLimit now s = (Returned admitted, s').
Proof.
  rewrite bumpRateLimit_unfold. cbv zeta.
  destruct (_ >=? _); eexists _, _; reflexivity.
Qed.

(** The three ways a chat turn ends once the clock is valid: rejected by
    the rate limiter, without a model, or through [generate]. *)
Lemma execute_cases lc bsp st now modelInfo (s : Store) :
  validTime now →
  ∃ admitted s',
    bumpRateLimit now s = (Returned admitted, s') ∧
    if admitted then
      match modelInfo with
      | None => execute lc bsp st now modelInfo s = (Returned unavailableRun, s')
      | Some info =>
          ∃ prompt,
            execute lc bsp st now modelInfo s
              = (Returned (generate st prompt info []), s')
      end
    else execute lc bsp st now modelInfo s = (Returned rejectedRun, s').
Proof.
  intros Hnow.
  destruct (bumpRateLimit_returns now s) as (admitted & s' & Hb).
  exists admitted, s'. split; [exact Hb|].
  unfold execute, mbind, Agent_bind. rewrite Hb.
  destruct admitted; cbn [negb]; [|reflexivity].
  destruct modelInfo as [info|]; [|reflexivity].
  unfold getProfile, getLatestMealPlan, fmap, Agent_fmap, storageGet.
  destruct (getDailyMacros_returns now s' Hnow) as [today ->].
  destruct (getMealHistory_returns lc (Some 3) s') as [history ->].
  destruct (truthyString _);
    match goal with
    | |- context [getShoppingList ?id s'] =>
        destruct (getShoppingList_returns id s') as [list ->]
    end;
    eexists; reflexivity.
Qed.

Lemma writesOnly_execute lc bsp st now modelInfo :
  writesOnly [RATE_LIMIT] (execute lc bsp st now modelInfo).
Proof.
  unfold execute. apply writesOnly_bind; [apply writesOnly_bumpRateLimit|].
  intros admitted. apply writesOnly_readOnly.
  destruct admitted; cbn [negb]; [|apply readOnly_ret].
  destruct modelInfo as [info|]; [|apply readOnly_ret].
  apply readOnly_bind; [apply readOnly_getProfile|]. intros profile.
  apply readOnly_bind; [apply readOnly_getDailyMacros|]. intros today.
  apply readOnly_bind; [apply readOnly_getMealHistory|]. intros history.
  apply readOnly_bind; [apply readOnly_getLatestMealPlan|]. intros activePlan.
  apply readOnly_bind; [|intros list; apply readOnly_ret].
  destruct (truthyString _); apply readOnly_getShoppingList.
Qed.






(** ** The worker, continued *)

(** X5. The job scheduler is reached only through
    [POST /trigger-workflow]: whenever [fetch] answers from the workflow
    branch, the request is such a request, the status is 202 or 400, at
    most the parsed body is forwarded, and the status is 202 exactly when
    the body was forwarded and the scheduler returned an identifier. *)
Theorem scheduler_reached_only_by_trigger (create : JSON → Outcome string)
    (request : Request) (response : Response) (forwarded : list JSON) :
  fetch create request = Workflow response forwarded →
  method request = POST ∧
  pathname request = "/trigger-workflow" ∧
  (status response = 202 ∨ status response = 400) ∧
  (forwarded = [] ∨ ∃ body, json request = Some body ∧ forwarded = [body]) ∧
  (status response = 202 ↔
   ∃ body id, forwarded = [body] ∧ create body = Returned id).
Proof.
  unfold fetch.
  destruct (isMethod (method request) OPTIONS); [discriminate|].
  destruct (String.eqb (pathname request) "/health"); [discriminate|].
  destruct (_ && _); [discriminate|].
  destruct (String.eqb_spec (pathname request) "/trigger-workflow") as [Hpath|];
    [|discriminate].
  destruct (method request) eqn:Hmethod; try discriminate. simpl.
  unfold triggerWorkflow.
  destruct (json request) as [body|].
  - destruct (falsy body || negb (isObject body) || negb (hasKey "type" body)).
    + intros [= <- <-]. repeat split; simpl; auto.
      * discriminate.
      * intros (b & i & [=] & _).
    + destruct (create body) as [id|e] eqn:Hcreate; intros [= <- <-];
        (split; [reflexivity|]); (split; [assumption|]); simpl.
      * split; [auto|]. split; [eauto|]. split; [eauto|reflexivity].
      * split; [auto|]. split; [eauto|]. split; [discriminate|].
        intros (b & i & [= <-] & Hb). congruence.
  - intros [= <- <-]. repeat split; simpl; auto.
    + discriminate.
    + intros (b & i & [=] & _).
Qed.

(** The theorem at work: the request of the repository's own test. *)
Lemma scheduler_reached_only_by_trigger_witness :
  let create (_ : JSON) : Outcome string := Returned "wf_test" in
  let payload := JObject [("type", JString "daily_macro_check")] in
  method (triggerRequest (Some payload)) = POST ∧
  ∃ body id, [payload] = [body] ∧ create body = Returned id.
Proof.
  intros create payload.
  destruct (scheduler_reached_only_by_trigger create
              (triggerRequest (Some payload)) (queued "wf_test") [payload] eq_refl)
    as (Hmethod & _ & _ & _ & Haccepted).
  split; [exact Hmethod|]. apply Haccepted. reflexivity.
Defined.

(** ** The tools, continued *)


Lemma writesOnly_throw {A} keys e : writesOnly keys (@throw A e).
Proof. apply writesOnly_readOnly, readOnly_throw. Qed.

Lemma writesOnly_ret {A} keys (a : A) : writesOnly keys (mret a).
Proof. apply writesOnly_readOnly, readOnly_ret. Qed.

(** X7. Each writing tool touches only the keys of its own entity:
    [updateProfile] the profile; [saveMealPlan] the active plan and the
    plan history; [saveShoppingList] the shopping lists, and the active
    plan and plan history for the back-link; [logMeal] the day of the
    current UTC date and the dates index. Every other key of the store
    keeps its value, whether the tool returns or throws. *)
Theorem tools_write_their_own_keys lc (agent : bool) (now : Z)
    (uuid : option string) :
  (∀ input, writesOnly [PROFILE] (tool_updateProfile agent now input)) ∧
  (∀ input, writesOnly [MEAL_PLAN_ACTIVE; MEAL_PLAN_HISTORY]
              (tool_saveMealPlan agent now uuid input)) ∧
  (∀ input, writesOnly [SHOPPING_LISTS; MEAL_PLAN_ACTIVE; MEAL_PLAN_HISTORY]
              (tool_saveShoppingList agent now uuid input)) ∧
  (∀ input date, dateOf now = Some date →
     writesOnly [getDailyKey date; MEAL_DATES]
       (tool_logMeal lc agent now uuid input)) ∧
  (∀ input, dateOf now = None → readOnly (tool_logMeal lc agent now uuid input)).
Proof.
  split; [|split; [|split; [|split]]].
  - intros input. unfold tool_updateProfile.
    destruct agent; cbn [negb]; [|apply writesOnly_throw].
    apply writesOnly_bind; [apply writesOnly_setProfile|].
    intros updated. apply writesOnly_ret.
  - intros input. unfold tool_saveMealPlan.
    destruct agent; cbn [negb]; [|apply writesOnly_throw].
    apply writesOnly_bind; [apply writesOnly_saveMealPlan|].
    intros []. apply writesOnly_ret.
  - intros input. unfold tool_saveShoppingList.
    destruct agent; cbn [negb]; [|apply writesOnly_throw].
    apply writesOnly_bind.
    { eapply writesOnly_weaken, writesOnly_saveShoppingList. set_solver. }
    intros []. apply writesOnly_bind; [|intros []; apply writesOnly_ret].
    destruct (truthyString _); [|apply writesOnly_ret].
    apply writesOnly_bind.
    { apply writesOnly_readOnly, readOnly_getLatestMealPlan. }
    intros [latest|]; [|apply writesOnly_ret].
    case_bool_decide; [|apply writesOnly_ret].
    eapply writesOnly_weaken, writesOnly_saveMealPlan. set_solver.
  - intros input date Hdate s key Hkey. unfold tool_logMeal.
    destruct agent; cbn [negb]; [|reflexivity].
    unfold mbind, Agent_bind.
    match goal with
    | |- context [logMeal lc now uuid ?meal s] =>
        rewrite (logMeal_run lc now uuid meal s date Hdate)
    end.
    cbv beta iota zeta. unfold mret, Agent_ret. cbn [snd].
    rewrite !lookup_insert_ne by set_solver. reflexivity.
  - intros input Hdate s. unfold tool_logMeal.
    destruct agent; cbn [negb]; [|reflexivity].
    unfold mbind, Agent_bind, logMeal. cbn [arg_timestamp JS.nullish].
    unfold toDateString. unfold dateOf in Hdate.
    destruct (ISODate.datePart now); [discriminate|]. reflexivity.
Qed.

(** The theorem at work: logging a meal leaves the profile alone. *)
Lemma tools_write_their_own_keys_witness :
  let lc (a b : string) := 0 in
  let input :=
    {| in_food := "yogurt"; in_mealType := None; in_protein := 10;
       in_carbs := 8; in_fat := 3; in_calories := 100; in_notes := None |} in
  (tool_logMeal lc true 1760398200000 None input berlinSession).2 !! PROFILE
    = berlinSession !! PROFILE.
Proof.
  intros lc input.
  apply (proj1 (proj2 (proj2 (proj2
           (tools_write_their_own_keys lc true 1760398200000 None))))
           input "2025-10-13" eq_refl).
  apply (bool_decide_unpack _). vm_compute. exact I.
Defined.

(** ** Shopping lists, continued *)

Lemma Obj_get_assign_ne {V} k k' (v : V) o :
  k' ≠ k → Obj.get k' (Obj.assign k v o) = Obj.get k' o.
Proof.
  intros Hne. induction o as [|[k0 v0] o IH]; simpl.
  - destruct (String.eqb_spec k k'); congruence.
  - destruct (String.eqb_spec k0 k) as [->|]; simpl.
    + destruct (String.eqb_spec k k'); congruence.
    + rewrite IH. reflexivity.
Qed.

Lemma listsOf_saveShoppingList list (s : Store) :
  listsOf (saveShoppingList list s).2 = Obj.assign (sl_id list) list (listsOf s).
Proof.
  rewrite saveShoppingList_unfold. unfold listsOf. cbn [snd].
  rewrite lookup_insert_eq. reflexivity.
Qed.

Lemma getShoppingList_by_id id (s : Store) :
  id ≠ EmptyString →
  getShoppingList (Some id) s = (Returned (Obj.get id (listsOf s)), s).
Proof.
  intros Hid. unfold getShoppingList. run.
  rewrite bool_decide_false by assumption. reflexivity.
Qed.

(** X8. Saving then fetching a shopping list. After
    [saveShoppingList(list)], [getShoppingList(list.id)] returns that
    list (for a non-empty id; the empty id is read as "no id" and asks
    for the latest list), and the list stored under any other non-empty
    id is still returned as before. *)
Theorem shopping_list_round_trip (s : Store) (list : ShoppingList) :
  sl_id list ≠ EmptyString →
  let s' := (saveShoppingList list s).2 in
  getShoppingList (Some (sl_id list)) s' = (Returned (Some list), s') ∧
  (∀ id, id ≠ EmptyString → id ≠ sl_id list →
     (getShoppingList (Some id) s').1 = (getShoppingList (Some id) s).1).
Proof.
  intros Hid s'. split.
  - rewrite getShoppingList_by_id by assumption. subst s'.
    rewrite listsOf_saveShoppingList, Obj_get_assign. reflexivity.
  - intros id Hne Hother. rewrite !getShoppingList_by_id by assumption.
    subst s'. rewrite listsOf_saveShoppingList, Obj_get_assign_ne by assumption.
    reflexivity.
Qed.

(** The theorem at work: the list of the back-link example. *)
Lemma shopping_list_round_trip_witness :
  let list := listOf 5 None listForUnnamedPlan in
  getShoppingList (Some "list-1") (saveShoppingList list ∅).2
    = (Returned (Some list), (saveShoppingList list ∅).2).
Proof.
  intros list.
  apply (proj1 (shopping_list_round_trip ∅ list ltac:(discriminate))).
Defined.

Lemma latestFirst_sorted lists :
  StronglySorted (inOrder latestFirst) (JS.sort latestFirst lists).
Proof.
  apply (sort_sorted latestFirst (λ _, True)); unfold latestFirst.
  - intros a b _ _. lia.
  - intros a b c _ _ _. lia.
  - apply Forall_forall. auto.
Qed.

(** X9. The latest shopping list. Without an id, [getShoppingList]
    returns nothing exactly when no list is stored, and otherwise returns
    a stored list whose creation time is at least that of every stored
    list. *)
Theorem latest_shopping_list (s : Store) :
  match (getShoppingList None s).1 with
  | Returned (Some list) =>
      list ∈ Obj.values (listsOf s) ∧
      ∀ other, other ∈ Obj.values (listsOf s) →
               sl_createdAt other ≤ sl_createdAt list
  | Returned None => listsOf s = []
  | Thrown _ => False
  end.
Proof.
  unfold getShoppingList. run. fold (listsOf s).
  pose proof (latestFirst_sorted (Obj.values (listsOf s))) as Hsorted.
  pose proof (sort_Permutation latestFirst (Obj.values (listsOf s))) as Hperm.
  fold latestFirst.
  destruct (JS.sort latestFirst (Obj.values (listsOf s))) as [|list rest]; simpl.
  - apply Permutation_nil_l in Hperm. unfold Obj.values in Hperm.
    symmetry in Hperm. apply fmap_nil_inv in Hperm. exact Hperm.
  - apply StronglySorted_cons in Hsorted as [Hfirst _].
    rewrite Forall_forall in Hfirst. split.
    + rewrite <- Hperm. left.
    + intros other Hother. rewrite <- Hperm in Hother.
      apply elem_of_cons in Hother as [->|Hother]; [lia|].
      specialize (Hfirst other Hother). unfold inOrder, latestFirst in Hfirst. lia.
Qed.

(** ** Meal plans, continued *)

Lemma historyOf_saveMealPlan plan (s : Store) :
  historyOf (saveMealPlan plan s).2
    = take 5 (plan :: filter (λ item, mp_id item ≠ mp_id plan) (historyOf s)) ∧
  asPlan ((saveMealPlan plan s).2 !! MEAL_PLAN_ACTIVE) = Some plan.
Proof.
  rewrite saveMealPlan_unfold. unfold historyOf. cbn [snd]. split.
  - rewrite lookup_insert_eq. reflexivity.
  - rewrite lookup_insert_ne by discriminate. rewrite lookup_insert_eq. reflexivity.
Qed.

Lemma NoDup_ids_step plan history :
  NoDup (mp_id <$> history) →
  NoDup (mp_id <$> take 5 (plan :: filter (λ item, mp_id item ≠ mp_id plan) history)).
Proof.
  intros Hnodup. rewrite fmap_take.
  eapply sublist_NoDup; [|apply sublist_take].
  rewrite fmap_cons. apply NoDup_cons. split.
  - intros Hin. apply list_elem_of_fmap in Hin as (q & Hq & Hin).
    apply list_elem_of_filter in Hin as [Hne _]. congruence.
  - eapply sublist_NoDup; [exact Hnodup|].
    apply fmap_sublist, sublist_filter.
Qed.

Lemma saveAll_run plans : ∀ s : Store,
  NoDup (mp_id <$> historyOf s) →
  ∃ units s',
    saveAll plans s = (Returned units, s') ∧
    NoDup (mp_id <$> historyOf s') ∧
    (∀ p, last plans = Some p →
       asPlan (s' !! MEAL_PLAN_ACTIVE) = Some p ∧
       head (historyOf s') = Some p ∧
       (length (historyOf s') ≤ 5)%nat).
Proof.
  induction plans as [|plan plans IH]; intros s Hnodup.
  - exists [], s. split; [reflexivity|]. split; [assumption|]. intros p [=].
  - destruct (historyOf_saveMealPlan plan s) as [Hhist Hactive].
    pose proof (saveMealPlan_unfold plan s) as Hrun.
    set (s1 := (saveMealPlan plan s).2) in *.
    assert (Hstep : saveMealPlan plan s = (Returned tt, s1))
      by (unfold s1; rewrite Hrun; reflexivity).
    destruct (IH s1) as (units & s' & Hall & Hnd & Hlast).
    { rewrite Hhist. apply NoDup_ids_step, Hnodup. }
    exists (tt :: units), s'. split; [|split; [assumption|]].
    + unfold saveAll in *. cbn [mapAll]. unfold mbind, Agent_bind.
      rewrite Hstep, Hall. reflexivity.
    + intros p Hp. destruct plans as [|plan' plans].
      * injection Hp as <-. unfold saveAll in Hall. cbn in Hall.
        injection Hall as _ <-. rewrite Hhist. split; [assumption|].
        split; [reflexivity|]. rewrite length_take. lia.
      * apply Hlast. rewrite <- Hp. reflexivity.
Qed.

(** X10. The plan history keeps its shape over any sequence of
    [saveMealPlan] calls. From a store whose history has pairwise
    distinct ids (an empty or missing history in particular), every call
    returns, the ids of the stored history stay pairwise distinct, and
    after the last call the active plan is the plan saved last, it heads
    the history, the history has at most five entries and
    [getMealPlanHistory()] returns all of it. *)
Theorem plan_history_invariant (s : Store) (plans : list MealPlan) :
  NoDup (mp_id <$> historyOf s) →
  let s' := (saveAll plans s).2 in
  (∃ units, (saveAll plans s).1 = Returned units) ∧
  NoDup (mp_id <$> historyOf s') ∧
  (∀ p, last plans = Some p →
     asPlan (s' !! MEAL_PLAN_ACTIVE) = Some p ∧
     head (historyOf s') = Some p ∧
     (length (historyOf s') ≤ 5)%nat ∧
     getMealPlanHistory None s' = (Returned (historyOf s'), s')).
Proof.
  intros Hnodup s'.
  destruct (saveAll_run plans s Hnodup) as (units & s1 & Hrun & Hnd & Hlast).
  subst s'. rewrite Hrun. cbn [fst snd].
  split; [eauto|]. split; [assumption|].
  intros p Hp. destruct (Hlast p Hp) as (Hactive & Hhead & Hlen).
  repeat split; try assumption.
  unfold getMealPlanHistory. run. fold (historyOf s1).
  change (JS.slice0 MAX_MEAL_PLAN_HISTORY (historyOf s1))
    with (take 5 (historyOf s1)).
  rewrite take_ge by lia. reflexivity.
Qed.

(** The theorem at work: the same plan saved twice, then another. *)
Lemma plan_history_invariant_witness :
  let plan id :=
    {| mp_id := id; mp_createdAt := 1; mp_timeframe := daily;
       mp_days := []; mp_shoppingListId := None |} in
  let s' := (saveAll [plan "a"; plan "a"; plan "b"] ∅).2 in
  NoDup (mp_id <$> historyOf s') ∧
  head (historyOf s') = Some (plan "b").
Proof.
  intros plan s'.
  destruct (plan_history_invariant ∅ [plan "a"; plan "a"; plan "b"])
    as (_ & Hnd & Hlast).
  - apply NoDup_nil_2.
  - split; [exact Hnd|]. apply (Hlast (plan "b") eq_refl).
Defined.

(** ** Logging a meal, continued *)

Lemma StronglySorted_weaken {A} (R R' : A → A → Prop) l :
  (∀ a b, R a b → R' a b) → StronglySorted R l → StronglySorted R' l.
Proof.
  intros HR. induction 1 as [|x l Hl IH Hx]; constructor; [assumption|].
  eapply Forall_impl; [exact Hx|]. intros b. apply HR.
Qed.

Lemma earliestFirst_sorted meals :
  StronglySorted (λ a b, ml_timestamp a ≤ ml_timestamp b)
    (JS.sort earliestFirst meals).
Proof.
  apply (StronglySorted_weaken (inOrder earliestFirst)).
  { unfold inOrder, earliestFirst. intros a b. lia. }
  apply (sort_sorted earliestFirst (λ _, True)); unfold earliestFirst.
  - intros a b _ _. lia.
  - intros a b c _ _ _. lia.
  - apply Forall_forall. auto.
Qed.

Lemma mealsOn_logMeal lc now uuid meal (s : Store) date :
  dateOf (arg_timestamp meal ?? now) = Some date →
  mealsOn (logMeal lc now uuid meal s).2 date
    = JS.sort earliestFirst (mealsOn s date ++ [loggedMeal now uuid meal]) ∧
  totalsOn (logMeal lc now uuid meal s).2 date
    = Some (computeTotals
              (JS.sort earliestFirst (mealsOn s date ++ [loggedMeal now uuid meal]))) ∧
  datesOf (logMeal lc now uuid meal s).2 = nextDates lc date (datesOf s).
Proof.
  intros Hdate. rewrite (logMeal_run lc now uuid meal s date Hdate). cbn [snd].
  assert (Hne : MEAL_DATES ≠ getDailyKey date)
    by (intros H; symmetry in H; revert H; apply (getDailyKey_dates _ _ Hdate)).
  split; [|split].
  - unfold mealsOn at 1. rewrite lookup_insert_ne, lookup_insert_eq by exact Hne.
    reflexivity.
  - unfold totalsOn. rewrite lookup_insert_ne, lookup_insert_eq by exact Hne.
    reflexivity.
  - unfold datesOf at 1. rewrite lookup_insert_eq. reflexivity.
Qed.

Lemma totalOf_snoc meals meal :
  totalOf (meals ++ [meal]) = addMeal (totalOf meals) meal.
Proof.
  rewrite (totalOf_Permutation (meals ++ [meal]) (meal :: meals))
    by (rewrite Permutation_app_comm; reflexivity).
  unfold totalOf, addMeal, sumOf. simpl. f_equal; lia.
Qed.

(** X11. A day's meals are kept in time order. After [logMeal] the meals
    stored for the date are sorted by timestamp, earliest first, whatever
    was stored for that date before. *)
Theorem logged_meals_sorted lc (s : Store) now uuid meal date :
  dateOf (arg_timestamp meal ?? now) = Some date →
  StronglySorted (λ a b, ml_timestamp a ≤ ml_timestamp b)
    (mealsOn (logMeal lc now uuid meal s).2 date).
Proof.
  intros Hdate.
  rewrite (proj1 (mealsOn_logMeal lc now uuid meal s date Hdate)).
  apply earliestFirst_sorted.
Qed.

(** The theorem at work: toast logged before the earlier eggs. *)
Lemma logged_meals_sorted_witness :
  let lc (a b : string) := 0 in
  let s : Store :=
    (logMeal lc (call_now toast) (call_uuid toast) (call_meal toast) ∅).2 in
  StronglySorted (λ a b, ml_timestamp a ≤ ml_timestamp b)
    (mealsOn (logMeal lc (call_now eggs) (call_uuid eggs) (call_meal eggs) s).2
       "2025-10-13").
Proof.
  intros lc s.
  apply (logged_meals_sorted lc s (call_now eggs) (call_uuid eggs)
           (call_meal eggs) "2025-10-13" eq_refl).
Defined.



(** X13. The dates index after one [logMeal]. It never holds more than
    30 dates, and every date it holds is the meal's date or was in the
    index before. While the index holds fewer than 30 dates nothing is
    dropped: the meal's date is in it afterwards, and so is every date
    that was. *)
Theorem dates_index_records_date lc (s : Store) now uuid meal date :
  dateOf (arg_timestamp meal ?? now) = Some date →
  let s' := (logMeal lc now uuid meal s).2 in
  (length (datesOf s') ≤ 30)%nat ∧
  (∀ d, d ∈ datesOf s' → d = date ∨ d ∈ datesOf s) ∧
  ((length (datesOf s) < 30)%nat →
     date ∈ datesOf s' ∧ ∀ d, d ∈ datesOf s → d ∈ datesOf s').
Proof.
  intros Hdate s'. subst s'.
  rewrite (proj2 (proj2 (mealsOn_logMeal lc now uuid meal s date Hdate))).
  rewrite nextDates_take.
  set (l := if bool_decide (date ∈ datesOf s) then datesOf s else datesOf s ++ [date]).
  assert (Hl : ∀ d, d ∈ l ↔ d ∈ datesOf s ∨ d = date).
  { intros d. unfold l. case_bool_decide; set_solver. }
  pose proof (sort_Permutation (descending lc) l) as Hperm.
  split; [rewrite length_take; lia|]. split.
  - intros d Hd. apply subseteq_take in Hd. rewrite Hperm in Hd.
    apply Hl in Hd. tauto.
  - intros Hroom.
    assert (Hlen : (length l ≤ 30)%nat).
    { unfold l. case_bool_decide; [lia|]. rewrite length_app. simpl. lia. }
    rewrite take_ge by (rewrite Hperm; exact Hlen).
    split; [|intros d Hd]; rewrite Hperm; apply Hl; auto.
Qed.

(** The theorem at work: the first meal of an empty store. *)
Lemma dates_index_records_date_witness :
  let lc (a b : string) := 0 in
  "2025-10-13"
    ∈ datesOf (logMeal lc (call_now eggs) (call_uuid eggs) (call_meal eggs) ∅).2.
Proof.
  intros lc.
  destruct (dates_index_records_date lc ∅ (call_now eggs) (call_uuid eggs)
              (call_meal eggs) "2025-10-13" eq_refl) as (_ & _ & Hroom).
  destruct Hroom as [Hin _]; [|exact Hin].
  unfold datesOf. rewrite lookup_empty. simpl. lia.
Defined.

(** X14. Reading a day back. [getDailyMacros(date)] returns the day that
    [logMeal] returned for that date, and for a date with nothing stored
    it returns a day with no meals and zero totals, without storing it. *)
Theorem daily_macros_round_trip lc (s : Store) now uuid meal date :
  (dateOf (arg_timestamp meal ?? now) = Some date →
   ∃ day,
     (logMeal lc now uuid meal s).1 = Returned day ∧
     ∀ now',
       getDailyMacros now' (Some date) (logMeal lc now uuid meal s).2
         = (Returned day, (logMeal lc now uuid meal s).2)) ∧
  (s !! getDailyKey date = None →
   ∀ now', getDailyMacros now' (Some date) s = (Returned (emptyDay date), s)).
Proof.
  split.
  - intros Hdate.
    destruct (logMeal_stored lc now uuid meal s date Hdate)
      as (day & Hret & Hkey & _).
    exists day. split; [assumption|]. intros now'.
    unfold getDailyMacros, mbind, Agent_bind, mret, Agent_ret.
    rewrite readDaily_run, Hkey. reflexivity.
  - intros Hnone now'.
    unfold getDailyMacros, mbind, Agent_bind, mret, Agent_ret.
    rewrite readDaily_run, Hnone. reflexivity.
Qed.

(** The theorem at work: a day of an empty store. *)
Lemma daily_macros_round_trip_witness :
  let lc (a b : string) := 0 in
  getDailyMacros 0 (Some "2025-10-13") ∅
    = (Returned (emptyDay "2025-10-13"), ∅).
Proof.
  intros lc.
  apply (proj2 (daily_macros_round_trip lc ∅ 0 None timelessMeal "2025-10-13")
           (lookup_empty _) 0).
Defined.

(** X15. A timestamp that [Date] cannot represent (beyond 8.64e15 ms
    either side of the epoch) makes [logMeal] throw a [RangeError] before
    it writes anything. *)
Theorem logMeal_rejects_invalid_time lc (s : Store) now uuid meal :
  ¬ validTime (arg_timestamp meal ?? now) →
  logMeal lc now uuid meal s
    = (Thrown (Err "RangeError" "Invalid time value"), s).
Proof.
  intros Htime. unfold logMeal, mbind, Agent_bind, toDateString, ISODate.datePart.
  unfold validTime in Htime.
  replace ((- ISODate.maxTime <=? arg_timestamp meal ?? now)
           && (arg_timestamp meal ?? now <=? ISODate.maxTime)) with false;
    [reflexivity|].
  symmetry. apply andb_false_iff. lia.
Qed.

(** The theorem at work: a timestamp of 9e15 ms. *)
Lemma logMeal_rejects_invalid_time_witness :
  let lc (a b : string) := 0 in
  logMeal lc 0 None timelessMeal berlinSession
    = (Thrown (Err "RangeError" "Invalid time value"), berlinSession).
Proof.
  intros lc. apply logMeal_rejects_invalid_time.
  unfold validTime, ISODate.maxTime. simpl. lia.
Defined.

(** X16. What the [logMeal] tool stores. At a valid clock time the tool
    returns a confirmation and the day of the current UTC date gains
    exactly one meal: the input's food, type, macros and notes, stamped
    with the current time, and with the empty string as its identifier
    (the tool passes [id: ""], which is not nullish, so no identifier is
    generated). *)
Theorem tool_logMeal_stores lc (s : Store) now uuid input date :
  dateOf now = Some date →
  ∃ confirmation,
    (tool_logMeal lc true now uuid input s).1 = Returned confirmation ∧
    mealsOn (tool_logMeal lc true now uuid input s).2 date
      ≡ₚ mealsOn s date ++ [toolMeal now input].
Proof.
  intros Hdate. unfold tool_logMeal. cbn [negb]. unfold mbind, Agent_bind.
  match goal with
  | |- context [logMeal lc now uuid ?meal s] =>
      pose proof (mealsOn_logMeal lc now uuid meal s date Hdate) as (Hmeals & _);
      pose proof (logMeal_stored lc now uuid meal s date Hdate)
        as (day & Hret & _);
      destruct (logMeal lc now uuid meal s) as [o s'] eqn:Hrun
  end.
  cbn [fst snd] in *. subst o. cbv beta iota. unfold mret, Agent_ret.
  eexists. split; [reflexivity|]. cbn [snd].
  rewrite Hmeals. apply sort_Permutation.
Qed.

(** The theorem at work: a yogurt in the Berlin session. *)
Lemma tool_logMeal_stores_witness :
  let lc (a b : string) := 0 in
  let input :=
    {| in_food := "yogurt"; in_mealType := None; in_protein := 10;
       in_carbs := 8; in_fat := 3; in_calories := 100; in_notes := None |} in
  mealsOn (tool_logMeal lc true 1760398200000 (Some "uuid-1") input berlinSession).2
    "2025-10-13"
    ≡ₚ mealsOn berlinSession "2025-10-13" ++ [toolMeal 1760398200000 input].
Proof.
  intros lc input.
  destruct (tool_logMeal_stores lc berlinSession 1760398200000 (Some "uuid-1")
              input "2025-10-13" eq_refl) as (confirmation & _ & Hmeals).
  exact Hmeals.
Defined.

(** ** Meal history *)

Lemma omap_length_le {A B} (f : A → option B) l :
  (length (omap f l) ≤ length l)%nat.
Proof.
  induction l as [|x l IH]; csimpl; [lia|].
  destruct (f x); csimpl; lia.
Qed.

(** X17. [getMealHistory(limit)] for a limit that is not negative always
    returns, writes nothing, and returns at most [limit] days and at most
    one day per date of the index; every day it returns is the day stored
    under a date of the index. Without a limit it behaves as with 7. *)
Theorem meal_history_bounded lc (s : Store) (limit : Z) :
  0 ≤ limit →
  getMealHistory lc None s = getMealHistory lc (Some 7) s ∧
  ∃ history,
    getMealHistory lc (Some limit) s = (Returned history, s) ∧
    Z.of_nat (length history) ≤ limit ∧
    (length history ≤ length (datesOf s))%nat ∧
    (∀ day, day ∈ history →
       ∃ d, d ∈ datesOf s ∧ s !! getDailyKey d = Some (VDaily day)).
Proof.
  intros Hlimit. split; [reflexivity|].
  unfold getMealHistory. run. fold (datesOf s).
  destruct (datesOf s) as [|d0 ds] eqn:Hdates.
  { exists []. repeat split; simpl; try lia. intros day Hday. inversion Hday. }
  unfold mbind, Agent_bind. rewrite mapAll_readDaily.
  eexists. split; [reflexivity|].
  unfold JS.slice0. replace (0 <=? limit) with true
    by (symmetry; apply Z.leb_le; lia).
  set (sorted := JS.sort _ (d0 :: ds)).
  assert (Hperm : sorted ≡ₚ d0 :: ds) by apply sort_Permutation.
  set (ordered := take (Z.to_nat limit) sorted).
  assert (Hlen : (length ordered ≤ Z.to_nat limit)%nat
                 ∧ (length ordered ≤ length (d0 :: ds))%nat).
  { unfold ordered. rewrite length_take, <- Hperm. lia. }
  pose proof (omap_length_le (λ day, day)
                ((λ date, asDaily (s !! getDailyKey date)) <$> ordered)) as Hle.
  rewrite length_fmap in Hle.
  split; [lia|]. split; [lia|].
  intros day Hday.
  apply list_elem_of_omap in Hday as (o & Ho & ->).
  apply list_elem_of_fmap in Ho as (d & Hd & Hin).
  exists d. split.
  - rewrite <- Hperm. eapply subseteq_take, Hin.
  - destruct (s !! getDailyKey d) as [[]|]; simpl in Hd; congruence.
Qed.

(** The theorem at work: the history of a store after one meal. *)
Lemma meal_history_bounded_witness :
  let lc (a b : string) := 0 in
  let s : Store :=
    (logMeal lc (call_now eggs) (call_uuid eggs) (call_meal eggs) ∅).2 in
  ∃ history,
    getMealHistory lc (Some 3) s = (Returned history, s) ∧
    Z.of_nat (length history) ≤ 3.
Proof.
  intros lc s.
  destruct (meal_history_bounded lc s 3 ltac:(lia))
    as (_ & history & Hrun & Hlen & _).
  exists history. split; assumption.
Defined.

(** ** Profile updates, continued *)

Lemma spread_idem {A} (base over : prop A) :
  spread (spread base over) over = spread base over.
Proof. destruct over; reflexivity. Qed.

(** X18. [setProfile] followed by [getProfile]. [setProfile] returns
    the merged profile, stamped with the current time, and stores it:
    [getProfile] then returns it; and applying the same update again at
    the same time returns the same profile and leaves the store as it
    is. *)
Theorem setProfile_round_trip (s : Store) (now : Z) (profile : UserProfile) :
  let s' := (setProfile now profile s).2 in
  ∃ merged,
    (setProfile now profile s).1 = Returned merged ∧
    up_updatedAt merged = Defined now ∧
    getProfile s' = (Returned (Some merged), s') ∧
    setProfile now profile s' = (Returned merged, s').
Proof.
  intros s'. subst s'. unfold setProfile, getProfile. run.
  eexists. split; [reflexivity|]. split; [reflexivity|].
  rewrite lookup_insert_eq. simpl. split; [reflexivity|].
  rewrite !spread_idem, insert_insert_eq. reflexivity.
Qed.

(** X19. The [updateProfile] tool merges every field but the macro
    targets field by field: name, goal, weight, target weight, height,
    age, sex, activity level, restrictions, preferences and timezone each
    take the supplied value, or keep the stored one when the update does
    not name them; the profile's id is kept; the update time is stamped;
    and nothing but the profile is written. *)
Theorem profile_update_merges_fields (s : Store) (now : Z)
    (input : ProfileUpdateInput) :
  let existing := asProfile (s !! PROFILE) ?? emptyProfile in
  ∃ p confirmation,
    tool_updateProfile true now input s
      = (Returned confirmation, <[PROFILE := VProfile p]> s) ∧
    read (up_name p) = merged (up_name existing) (in_name input) ∧
    read (up_goalType p) = merged (up_goalType existing) (in_goalType input) ∧
    read (up_weight p) = merged (up_weight existing) (in_weight input) ∧
    read (up_targetWeight p)
      = merged (up_targetWeight existing) (in_targetWeight input) ∧
    read (up_heightInches p)
      = merged (up_heightInches existing) (in_heightInches input) ∧
    read (up_age p) = merged (up_age existing) (in_age input) ∧
    read (up_sex p) = merged (up_sex existing) (in_sex input) ∧
    read (up_activityLevel p)
      = merged (up_activityLevel existing) (in_activityLevel input) ∧
    read (up_restrictions p)
      = merged (up_restrictions existing) (in_restrictions input) ∧
    read (up_preferences p)
      = merged (up_preferences existing) (in_preferences input) ∧
    read (up_timezone p) = merged (up_timezone existing) (in_timezone input) ∧
    read (up_id p) = read (up_id existing) ∧
    up_updatedAt p = Defined now.
Proof.
  intros existing.
  destruct (tool_updateProfile_stored now input s)
    as (p & confirmation & Hrun & H1 & H2 & H3 & H4 & H5 & H6 & H7 & H8 & H9
        & H10 & H11 & H12 & H13 & _).
  exists p, confirmation. repeat split; assumption.
Qed.

(** ** Narration of a shopping list *)

Lemma get_pushTo {V} k k' (v : V) m :
  Obj.get k' (pushTo k v m) =
    if bool_decide (k' = k) then Some (groupOf k m ++ [v]) else Obj.get k' m.
Proof.
  unfold groupOf. induction m as [|[k0 vs] m IH]; cbn [pushTo Obj.get JS.nullish].
  - destruct (String.eqb_spec k k') as [->|Hne].
    + rewrite bool_decide_true by reflexivity. reflexivity.
    + rewrite bool_decide_false by congruence. reflexivity.
  - destruct (String.eqb_spec k0 k) as [->|Hne]; cbn [Obj.get JS.nullish].
    + destruct (String.eqb_spec k k') as [->|Hne'].
      * rewrite bool_decide_true by reflexivity. reflexivity.
      * rewrite bool_decide_false by congruence. reflexivity.
    + rewrite IH. destruct (String.eqb_spec k0 k') as [->|Hne'].
      * rewrite bool_decide_false by congruence. reflexivity.
      * reflexivity.
Qed.

Lemma keys_pushTo {V} k (v : V) m :
  (pushTo k v m).*1 = if bool_decide (k ∈ m.*1) then m.*1 else m.*1 ++ [k].
Proof.
  induction m as [|[k0 vs] m IH]; cbn [pushTo fmap list_fmap fst].
  - rewrite bool_decide_false by (apply not_elem_of_nil). reflexivity.
  - destruct (String.eqb_spec k0 k) as [->|Hne]; cbn [fmap list_fmap fst].
    + rewrite bool_decide_true by left. reflexivity.
    + rewrite IH. destruct (decide (k ∈ m.*1)) as [Hin|Hin].
      * rewrite !bool_decide_true by (try right; assumption). reflexivity.
      * rewrite !bool_decide_false; [reflexivity| |assumption].
        intros [->|]%elem_of_cons; contradiction.
Qed.

(** What holds of the groups built so far from the items [seen]. *)
Lemma itemsByMeal_invariant items : ∀ m (seen : list ShoppingListItem),
  NoDup m.*1 →
  (∀ k e, e ∈ groupOf k m ↔
          ∃ item, item ∈ seen ∧ e = labelOf item ∧ k ∈ bucketsOf item) →
  (∀ k, k ∈ m.*1 → groupOf k m ≠ []) →
  let m' := foldl addItem m items in
  NoDup m'.*1 ∧
  (∀ k e, e ∈ groupOf k m' ↔
          ∃ item, item ∈ seen ++ items ∧ e = labelOf item ∧ k ∈ bucketsOf item) ∧
  (∀ k, k ∈ m'.*1 → groupOf k m' ≠ []).
Proof.
  assert (Hpush : ∀ (m : list (string * list (string * string))) key v,
    NoDup m.*1 → (∀ k, k ∈ m.*1 → groupOf k m ≠ []) →
    NoDup (pushTo key v m).*1 ∧
    (∀ k e, e ∈ groupOf k (pushTo key v m) ↔ e ∈ groupOf k m ∨ (e = v ∧ k = key)) ∧
    (∀ k, k ∈ (pushTo key v m).*1 → groupOf k (pushTo key v m) ≠ [])).
  { intros m key v Hnd Hne. split; [|split].
    - rewrite keys_pushTo. case_bool_decide; [assumption|].
      apply NoDup_app. split; [assumption|]. split; [|apply NoDup_singleton].
      intros x Hx ->%list_elem_of_singleton. contradiction.
    - intros k e. unfold groupOf at 1. rewrite get_pushTo.
      case_bool_decide as Hk.
      + subst k. cbn [JS.nullish]. rewrite elem_of_app, list_elem_of_singleton. tauto.
      + fold (groupOf k m). split; [auto|]. intros [|[_ ?]]; [assumption|contradiction].
    - intros k Hkeys. unfold groupOf at 1. rewrite get_pushTo.
      case_bool_decide as Hk.
      + cbn [JS.nullish]. intros H. apply app_eq_nil in H as [_ H]. discriminate.
      + fold (groupOf k m). apply Hne.
        rewrite keys_pushTo in Hkeys. case_bool_decide; [assumption|].
        apply elem_of_app in Hkeys as [|Hkeys%list_elem_of_singleton];
          [assumption|contradiction]. }
  assert (Hrefs : ∀ refs (m : list (string * list (string * string))) v,
    NoDup m.*1 → (∀ k, k ∈ m.*1 → groupOf k m ≠ []) →
    let m' := foldl (λ m mealRef, pushTo mealRef v m) m refs in
    NoDup m'.*1 ∧
    (∀ k e, e ∈ groupOf k m' ↔ e ∈ groupOf k m ∨ (e = v ∧ k ∈ refs)) ∧
    (∀ k, k ∈ m'.*1 → groupOf k m' ≠ [])).
  { induction refs as [|ref refs IH]; intros m v Hnd Hne; simpl.
    - split; [assumption|]. split; [|assumption].
      intros k e. rewrite elem_of_nil. tauto.
    - destruct (Hpush m ref v Hnd Hne) as (Hnd1 & Hin1 & Hne1).
      destruct (IH (pushTo ref v m) v Hnd1 Hne1) as (Hnd2 & Hin2 & Hne2).
      split; [assumption|]. split; [|assumption].
      intros k e. rewrite Hin2, Hin1, elem_of_cons. tauto. }
  induction items as [|item items IH]; intros m seen Hnd Hin Hne; simpl.
  - rewrite app_nil_r. auto.
  - assert (Hstep :
      NoDup (addItem m item).*1 ∧
      (∀ k e, e ∈ groupOf k (addItem m item) ↔
              e ∈ groupOf k m ∨ (e = labelOf item ∧ k ∈ bucketsOf item)) ∧
      (∀ k, k ∈ (addItem m item).*1 → groupOf k (addItem m item) ≠ [])).
    { unfold addItem, bucketsOf. fold (labelOf item).
      destruct (sli_mealReferences item) as [|ref refs] eqn:Hitem.
      - destruct (Hpush m "Other" (labelOf item) Hnd Hne) as (H1 & H2 & H3).
        split; [assumption|]. split; [|assumption].
        intros k e. rewrite H2, list_elem_of_singleton. tauto.
      - apply (Hrefs (ref :: refs) m (labelOf item) Hnd Hne). }
    destruct Hstep as (Hnd1 & Hin1 & Hne1).
    replace (seen ++ item :: items) with ((seen ++ [item]) ++ items)
      by (rewrite <- app_assoc; reflexivity).
    apply IH; [assumption| |assumption].
    intros k e. rewrite Hin1, Hin. split.
    + intros [(it & Hit & He & Hk) | (He & Hk)].
      * exists it. rewrite elem_of_app. tauto.
      * exists item. rewrite elem_of_app, list_elem_of_singleton. tauto.
    + intros (it & Hit & He & Hk). apply elem_of_app in Hit as [Hit|Hit].
      * left. eauto.
      * apply list_elem_of_singleton in Hit as ->. tauto.
Qed.


(** ** Conversation clean-up *)

Lemma keepsMessage_incomplete isTool message :
  keepsMessage isTool message = false ↔ incomplete isTool message.
Proof.
  unfold keepsMessage, incomplete, hasIncompleteToolCall.
  destruct (msg_parts message) as [parts|].
  - rewrite negb_false_iff, existsb_exists. split.
    + intros (part & Hin & Hpart). exists parts, part.
      split; [reflexivity|]. split; [apply list_elem_of_In, Hin|].
      destruct (isTool part); simpl in Hpart; [|discriminate].
      split; [reflexivity|]. apply bool_decide_eq_true in Hpart. exact Hpart.
    + intros (parts' & part & [= <-] & Hin & Htool & Hstate).
      exists part. split; [apply list_elem_of_In, Hin|].
      rewrite Htool. simpl. apply bool_decide_eq_true. exact Hstate.
  - split; [discriminate|]. intros (parts & part & [=] & _).
Qed.

(** X21. [cleanupMessages] drops exactly the messages that hold a tool
    part in the state "input-streaming": a message is in the result if and
    only if it is in the input and holds no such part (a message without
    parts is kept). The messages kept stay in their order, and cleaning up
    a second time changes nothing. *)
Theorem cleanupMessages_drops_incomplete (isToolUIPart : UIPart → bool)
    (messages : list UIMessage) :
  (∀ message,
     message ∈ cleanupMessages isToolUIPart messages ↔
     message ∈ messages ∧ ¬ incomplete isToolUIPart message) ∧
  cleanupMessages isToolUIPart messages `sublist_of` messages ∧
  cleanupMessages isToolUIPart (cleanupMessages isToolUIPart messages)
    = cleanupMessages isToolUIPart messages ∧
  ((∀ message, message ∈ messages → ¬ incomplete isToolUIPart message) →
   cleanupMessages isToolUIPart messages = messages).
Proof.
  assert (Hkeep : ∀ message,
    keepsMessage isToolUIPart message = true ↔ ¬ incomplete isToolUIPart message).
  { intros message. rewrite <- keepsMessage_incomplete.
    destruct (keepsMessage isToolUIPart message); split; congruence. }
  assert (Hall : ∀ l : list UIMessage,
    (∀ message, message ∈ l → keepsMessage isToolUIPart message = true) →
    cleanupMessages isToolUIPart l = l).
  { induction l as [|m l IH]; intros Hl; [reflexivity|].
    unfold cleanupMessages in *. rewrite filter_cons_True by (apply Hl; left).
    rewrite IH; [reflexivity|]. intros message Hin. apply Hl. right. exact Hin. }
  unfold cleanupMessages in *. split; [|split; [|split]].
  - intros message. rewrite list_elem_of_filter, Hkeep. tauto.
  - apply sublist_filter.
  - apply Hall. intros message Hin. apply list_elem_of_filter in Hin. tauto.
  - intros Hnone. apply Hall. intros message Hin. apply Hkeep, Hnone, Hin.
Qed.

(** ** Account reset *)



(** ** The workflow *)

(** X23. What a workflow run records. [run] always completes; it records
    3 events for a weekly meal prep, 2 for a daily macro check, 2 for a
    monthly report and none for any other [type]; each [step.do] records
    exactly one event, and the events carry the successive readings of
    the clock, in order. *)
Theorem workflow_run_events (clock : nat → Z)
    (payload : MealPrepWorkflow.WorkflowPayload) :
  let result := MealPrepWorkflow.run clock payload in
  let steps := MealPrepWorkflow.wf_steps (MealPrepWorkflow.runSteps clock payload) in
  MealPrepWorkflow.res_status result = "completed" ∧
  length (MealPrepWorkflow.res_events result)
    = eventCount (MealPrepWorkflow.wp_type payload) ∧
  (MealPrepWorkflow.res_events result ≠ [] ↔
   knownTag (MealPrepWorkflow.wp_type payload)) ∧
  length (filter (λ call, isDo call = true) steps)
    = length (MealPrepWorkflow.res_events result) ∧
  (∀ i event, MealPrepWorkflow.res_events result !! i = Some event →
              MealPrepWorkflow.ev_timestamp event = clock i).
Proof.
  intros result steps. subst result steps.
  unfold MealPrepWorkflow.run, MealPrepWorkflow.runSteps, eventCount, knownTag.
  cbn [MealPrepWorkflow.res_status MealPrepWorkflow.res_events].
  split; [reflexivity|].
  destruct (String.eqb_spec (MealPrepWorkflow.wp_type payload) "weekly_meal_prep")
    as [->|Hw]; [|
  destruct (String.eqb_spec (MealPrepWorkflow.wp_type payload) "daily_macro_check")
    as [->|Hd]; [|
  destruct (String.eqb_spec (MealPrepWorkflow.wp_type payload) "monthly_report")
    as [->|Hm]]]; simpl.
  - split; [reflexivity|]. split; [split; [auto|discriminate]|].
    split; [reflexivity|].
    intros [|[|[|i]]] event; simpl; try discriminate; intros [= <-]; reflexivity.
  - split; [reflexivity|]. split; [split; [auto|discriminate]|].
    split; [reflexivity|].
    intros [|[|i]] event; simpl; try discriminate; intros [= <-]; reflexivity.
  - split; [reflexivity|]. split; [split; [auto|discriminate]|].
    split; [reflexivity|].
    intros [|[|i]] event; simpl; try discriminate; intros [= <-]; reflexivity.
  - split; [reflexivity|]. split; [split; [congruence|tauto]|].
    split; [reflexivity|]. intros i event. discriminate.
Qed.

(** ** A plan and its shopping list *)

Lemma tool_saveMealPlan_run now uuid input (s : Store) :
  ∃ confirmation,
    tool_saveMealPlan true now uuid input s
      = (Returned confirmation, (saveMealPlan (planOf now uuid input) s).2).
Proof.
  unfold tool_saveMealPlan. cbn [negb]. fold (planIdOf now uuid input).
  fold (planOf now uuid input). unfold mbind, Agent_bind.
  rewrite saveMealPlan_unfold. eexists. reflexivity.
Qed.

(** X24. Saving a plan, then a shopping list for it. When the
    [saveMealPlan] tool has saved a plan with a non-empty id and the
    [saveShoppingList] tool is then given that id as [planId], the active
    plan is the saved plan with its [shoppingListId] set to the new list's
    id, that linked plan heads the plan history, no other history entry
    carries its id (the unlinked copy is replaced), and the list is stored
    under its id. *)
Theorem plan_then_shopping_list (s : Store) (now now' : Z)
    (uuid uuid' : option string) (input : MealPlanInput)
    (listInput : ShoppingListInput) :
  planIdOf now uuid input ≠ EmptyString →
  in_listPlanId listInput = Some (planIdOf now uuid input) →
  let plan := planOf now uuid input in
  let listId := listIdOf now' uuid' listInput in
  let s1 := (tool_saveMealPlan true now uuid input s).2 in
  let s2 := (tool_saveShoppingList true now' uuid' listInput s1).2 in
  asPlan (s2 !! MEAL_PLAN_ACTIVE) = Some (withShoppingList plan listId) ∧
  (∃ rest, historyOf s2 = withShoppingList plan listId :: rest ∧
           ∀ q, q ∈ rest → mp_id q ≠ mp_id plan) ∧
  Obj.get listId (listsOf s2) = Some (listOf now' uuid' listInput).
Proof.
  intros Hid HplanId plan listId s1 s2.
  destruct (tool_saveMealPlan_run now uuid input s) as [c1 Hrun1].
  assert (Hs1 : s1 = (saveMealPlan plan s).2) by (unfold s1; rewrite Hrun1; reflexivity).
  assert (Hactive1 : asPlan (s1 !! MEAL_PLAN_ACTIVE) = Some plan)
    by (rewrite Hs1; apply historyOf_saveMealPlan).
  destruct (tool_saveShoppingList_store now' uuid' listInput s1) as [c2 Hrun2].
  fold listId in Hrun2. cbv zeta in Hrun2.
  set (s1' := <[SHOPPING_LISTS := _]> s1) in Hrun2.
  rewrite HplanId, Hactive1 in Hrun2. unfold truthyString in Hrun2.
  destruct (String.eqb_spec (planIdOf now uuid input) EmptyString) as [|_];
    [contradiction|].
  cbn [negb] in Hrun2. rewrite bool_decide_true in Hrun2 by reflexivity.
  assert (Hs2 : s2 = (saveMealPlan (withShoppingList plan listId) s1').2)
    by (unfold s2; rewrite Hrun2; reflexivity).
  destruct (historyOf_saveMealPlan (withShoppingList plan listId) s1')
    as [Hhist Hactive2].
  rewrite <- Hs2 in Hhist, Hactive2.
  split; [exact Hactive2|]. split.
  - rewrite Hhist. cbn [take]. eexists. split; [reflexivity|].
    intros q Hq. apply subseteq_take, list_elem_of_filter in Hq as [Hne _].
    exact Hne.
  - rewrite Hs2, saveMealPlan_unfold. unfold listsOf. cbn [snd].
    rewrite !lookup_insert_ne by discriminate.
    unfold s1'. rewrite lookup_insert_eq. simpl. apply Obj_get_assign.
Qed.

(** The theorem at work: a plan "plan-1" and its list "list-1". *)
Lemma plan_then_shopping_list_witness :
  let input :=
    {| in_planId := Some "plan-1"; in_planTimeframe := daily; in_days := [];
       in_shoppingListId := None |} in
  let listInput :=
    {| in_listId := Some "list-1"; in_listPlanId := Some "plan-1";
       in_listTimeframe := daily; in_items := [] |} in
  let s1 := (tool_saveMealPlan true 1 None input ∅).2 in
  let s2 := (tool_saveShoppingList true 2 None listInput s1).2 in
  asPlan (s2 !! MEAL_PLAN_ACTIVE)
    = Some (withShoppingList (planOf 1 None input) "list-1").
Proof.
  intros input listInput s1 s2.
  apply (proj1 (plan_then_shopping_list ∅ 1 2 None None input listInput
                  ltac:(discriminate) eq_refl)).
Defined.

(** ** The rate limiter over any number of calls *)

Lemma answers_replicate n : ∀ c,
  0 ≤ c ≤ RATE_LIMIT_MAX_REQUESTS →
  answers c n =
    replicate (min n (Z.to_nat (RATE_LIMIT_MAX_REQUESTS - c))) true ++
    replicate (n - Z.to_nat (RATE_LIMIT_MAX_REQUESTS - c)) false.
Proof.
  unfold RATE_LIMIT_MAX_REQUESTS.
  induction n as [|n IH]; intros c Hc; [reflexivity|].
  cbn [answers]. unfold RATE_LIMIT_MAX_REQUESTS.
  destruct (c >=? 20) eqn:Hcap.
  - assert (c = 20) as -> by lia. rewrite IH by lia. simpl.
    rewrite !Nat.min_0_r, !Nat.sub_0_r. reflexivity.
  - rewrite IH by lia.
    replace (Z.to_nat (20 - c)) with (S (Z.to_nat (20 - (c + 1)))) by lia.
    reflexivity.
Qed.

(** X25. The rate limiter is a hard cutoff. From a store with no
    rate-limit record, any number of calls whose times all lie within the
    window opened by the first one are answered [true] for the first 20
    and [false] for all the later ones: exactly [min n 20] of [n] calls
    are admitted. *)
Theorem rate_limit_hard_cutoff (s : Store) (first : Z) (later : list Z) :
  s !! RATE_LIMIT = None →
  Forall (λ t, t ≤ first + RATE_LIMIT_WINDOW_MS) later →
  let n := S (length later) in
  (admitAll (first :: later) s).1
    = Returned (replicate (min n 20) true ++ replicate (n - 20) false) ∧
  ∀ results, (admitAll (first :: later) s).1 = Returned results →
             admittedCount results = min n 20%nat.
Proof.
  intros Hs Hin n.
  assert (Hrun : (admitAll (first :: later) s).1
                 = Returned (replicate (min n 20) true ++ replicate (n - 20) false)).
  { unfold admitAll. cbn [mapAll].
    unfold mbind at 1, Agent_bind. rewrite bumpRateLimit_unfold, Hs. simpl.
    replace (first >? first + RATE_LIMIT_WINDOW_MS) with false
      by (unfold RATE_LIMIT_WINDOW_MS; lia).
    simpl.
    pose proof (admitAll_within later
      (<[RATE_LIMIT :=
           VRate {| rl_count := 0 + 1;
                    rl_reset := first + RATE_LIMIT_WINDOW_MS |}]> s)
      (0 + 1) (first + RATE_LIMIT_WINDOW_MS)) as H.
    rewrite lookup_insert_eq in H. specialize (H eq_refl Hin).
    unfold admitAll in H. unfold mbind, Agent_bind.
    destruct (mapAll bumpRateLimit later _) as [[l|e] s'];
      simpl in *; [|congruence].
    injection H as ->. unfold mret, Agent_ret. cbn [fst]. f_equal.
    rewrite answers_replicate by (unfold RATE_LIMIT_MAX_REQUESTS; lia).
    unfold RATE_LIMIT_MAX_REQUESTS. subst n.
    change (Z.to_nat (20 - (0 + 1))) with 19%nat.
    destruct (length later) as [|k]; [reflexivity|].
    change (true :: ?l) with ([true] ++ l).
    destruct (decide (S k ≤ 19)%nat) as [Hle|Hgt].
    - replace (min (S k) 19) with (S k) by lia.
      replace (min (S (S k)) 20) with (S (S k)) by lia.
      replace (S k - 19)%nat with 0%nat by lia.
      replace (S (S k) - 20)%nat with 0%nat by lia. reflexivity.
    - replace (min (S k) 19) with 19%nat by lia.
      replace (min (S (S k)) 20) with 20%nat by lia.
      replace (S (S k) - 20)%nat with (S k - 19)%nat by lia. reflexivity. }
  split; [exact Hrun|].
  intros results Hresults. rewrite Hrun in Hresults.
  assert (results = replicate (min n 20) true ++ replicate (n - 20) false)
    as -> by congruence.
  unfold admittedCount. rewrite filter_app, length_app.
  assert (Htrue : ∀ k, length (filter (λ b, b = true) (replicate k true)) = k).
  { induction k as [|k IH]; [reflexivity|]. cbn [replicate].
    rewrite filter_cons_True by reflexivity. cbn [length]. rewrite IH. reflexivity. }
  assert (Hfalse : ∀ k, length (filter (λ b, b = true) (replicate k false)) = 0%nat).
  { induction k as [|k IH]; [reflexivity|]. cbn [replicate].
    rewrite filter_cons_False by discriminate. exact IH. }
  rewrite Htrue, Hfalse. lia.
Qed.

(** The theorem at work: twenty-five calls a second apart. *)
Lemma rate_limit_hard_cutoff_witness :
  (admitAll (1000 :: ((λ i, 1000 + 1000 * Z.of_nat i) <$> seq 1 24)) ∅).1
    = Returned (replicate 20 true ++ replicate 5 false).
Proof.
  destruct (rate_limit_hard_cutoff ∅ 1000
              ((λ i, 1000 + 1000 * Z.of_nat i) <$> seq 1 24)) as [Hrun _].
  - apply lookup_empty.
  - repeat (apply Forall_cons; split; [vm_compute; discriminate|]).
    apply Forall_nil_2.
  - exact Hrun.
Defined.

(** ** A logged day in the history *)

(** X26. A day that was just logged shows in the history. When the dates
    index holds fewer than 30 dates and fewer than [limit], the day that
    [logMeal] returned is among the days that [getMealHistory(limit)]
    returns afterwards. *)
Theorem logged_day_in_history lc (s : Store) now uuid meal date (limit : Z) :
  dateOf (arg_timestamp meal ?? now) = Some date →
  (length (datesOf s) < 30)%nat →
  Z.of_nat (length (datesOf s)) < limit →
  let s' := (logMeal lc now uuid meal s).2 in
  ∃ day history,
    (logMeal lc now uuid meal s).1 = Returned day ∧
    getMealHistory lc (Some limit) s' = (Returned history, s') ∧
    day ∈ history.
Proof.
  intros Hdate Hroom Hlimit s'.
  destruct (logMeal_stored lc now uuid meal s date Hdate)
    as (day & Hret & Hkey & _).
  pose proof (proj2 (proj2 (mealsOn_logMeal lc now uuid meal s date Hdate)))
    as Hdates.
  fold s' in Hkey, Hdates.
  exists day. unfold getMealHistory. run. fold (datesOf s').
  rewrite Hdates, nextDates_take.
  set (l := if bool_decide (date ∈ datesOf s) then datesOf s else datesOf s ++ [date]).
  assert (Hl : date ∈ l) by (unfold l; case_bool_decide; set_solver).
  assert (Hlen : (length l ≤ S (length (datesOf s)))%nat).
  { unfold l. case_bool_decide; [lia|]. rewrite length_app. simpl. lia. }
  pose proof (sort_Permutation (descending lc) l) as Hperm.
  rewrite take_ge by (rewrite Hperm; lia).
  destruct (JS.sort (descending lc) l) as [|d0 ds] eqn:Hsorted.
  { rewrite <- Hperm in Hl. inversion Hl. }
  unfold mbind, Agent_bind. rewrite mapAll_readDaily.
  eexists. split; [exact Hret|]. split; [reflexivity|].
  apply list_elem_of_omap. exists (Some day). split; [|reflexivity].
  apply list_elem_of_fmap. exists date. rewrite Hkey. split; [reflexivity|].
  unfold JS.slice0. replace (0 <=? limit) with true
    by (symmetry; apply Z.leb_le; lia).
  pose proof (sort_Permutation (λ a b, lc b a) (d0 :: ds)) as Hagain.
  rewrite take_ge by (rewrite Hagain, Hperm; lia).
  rewrite Hagain, Hperm. exact Hl.
Qed.

(** The theorem at work: the first meal of an empty store. *)
Lemma logged_day_in_history_witness :
  let lc (a b : string) := 0 in
  let s' := (logMeal lc (call_now eggs) (call_uuid eggs) (call_meal eggs) ∅).2 in
  ∃ day history,
    getMealHistory lc (Some 3) s' = (Returned history, s') ∧ day ∈ history.
Proof.
  intros lc s'.
  destruct (logged_day_in_history lc ∅ (call_now eggs) (call_uuid eggs)
              (call_meal eggs) "2025-10-13" 3 eq_refl)
    as (day & history & _ & Hrun & Hin).
  - unfold datesOf. rewrite lookup_empty. simpl. lia.
  - unfold datesOf. rewrite lookup_empty. simpl. lia.
  - exists day, history. split; assumption.
Defined.
